(** * vegachart: the chart-generation pipeline of [app.py]

    A shallow embedding of the two execution adapters of [src/app.py]
    ([execute_python_code], [execute_r_code]) and of the request handler
    [generate_chart], with the properties the specification states about
    them.

    Text is modelled as [string]: a sequence of 8-bit characters read as the
    code points 0..255 (the Latin-1 range of a Python [str]).  The embedded
    interpreter ([exec]), the plotting library, the renderer subprocess and
    the file system are outside [app.py]; they appear as parameters of the
    sections below or as the values they hand back.  So does the order in
    which a set of strings is iterated, which follows the hash seed of the
    process.  The byte sink handed to the program is kept with the state
    the program can leave it in, and what the program raises with its
    class, inside or outside [Exception]. *)

From Stdlib Require Import String Ascii List ZArith Lia Bool Arith.
From stdpp Require Import base option list strings gmap.

Import ListNotations.
Local Open Scope list_scope.
Local Open Scope string_scope.

(** ** Characters that a Rocq literal cannot hold directly *)

Definition LF : string := String "010"%char "".
Definition CR : string := String "013"%char "".
Definition DQ : string := String "034"%char "".
Definition CRLF : string := CR ++ LF.

(** ** Python [str] primitives used by [app.py] *)

Module PyStr.

(** [s[n:]] *)
Fixpoint drop (n : nat) (s : string) : string :=
  match n, s with
  | O, _ => s
  | S _, EmptyString => EmptyString
  | S n', String _ s' => drop n' s'
  end.

(** [s[:n]] *)
Fixpoint take (n : nat) (s : string) : string :=
  match n, s with
  | O, _ => EmptyString
  | S _, EmptyString => EmptyString
  | S n', String c s' => String c (take n' s')
  end.

(** [s.startswith(p)] *)
Definition startswith (p s : string) : bool := String.prefix p s.

(** [sub in s] *)
Fixpoint contains (sub s : string) : bool :=
  String.prefix sub s ||
  match s with
  | EmptyString => false
  | String _ s' => contains sub s'
  end.

(** The number of positions of [s] at which [sub] starts. *)
Fixpoint occurrences (sub s : string) : nat :=
  (if String.prefix sub s then 1 else 0) +
  match s with
  | EmptyString => 0
  | String _ s' => occurrences sub s'
  end.

(** [s.replace(old, new)] for a non-empty [old]: a left-to-right scan;
    [skip] counts the characters of a match still to be passed over. *)
Fixpoint replace_go (old new : string) (skip : nat) (s : string) : string :=
  match s with
  | EmptyString => EmptyString
  | String c s' =>
      match skip with
      | S k => replace_go old new k s'
      | O =>
          if String.prefix old s
          then new ++ replace_go old new (String.length old - 1) s'
          else String c (replace_go old new 0 s')
      end
  end.

(** [s.replace("", new)] puts [new] before every character and at the end. *)
Fixpoint interleave (new s : string) : string :=
  match s with
  | EmptyString => new
  | String c s' => new ++ String c (interleave new s')
  end.

Definition replace (old new s : string) : string :=
  match old with
  | EmptyString => interleave new s
  | String _ _ => replace_go old new 0 s
  end.

(** [c.isspace()] on the code points below 256: TAB..CR, FS..US, space,
    NEL and the no-break space.  [str.strip] with no argument and the
    regular-expression class [\s] both use it. *)
Definition is_space (c : ascii) : bool :=
  let n := nat_of_ascii c in
  (((9 <=? n) && (n <=? 13)) || ((28 <=? n) && (n <=? 32))
   || (n =? 133) || (n =? 160))%nat.

Fixpoint lstrip (s : string) : string :=
  match s with
  | EmptyString => EmptyString
  | String c s' => if is_space c then lstrip s' else s
  end.

Fixpoint rstrip (s : string) : string :=
  match s with
  | EmptyString => EmptyString
  | String c s' =>
      match rstrip s' with
      | EmptyString => if is_space c then EmptyString else String c EmptyString
      | r => String c r
      end
  end.

(** [s.strip()] *)
Definition strip (s : string) : string := rstrip (lstrip s).

(** [c.lower()] on the code points below 256: [A-Z] and the accented
    capitals 192..222 (but not the multiplication sign 215) move up by 32. *)
Definition lower_char (c : ascii) : ascii :=
  let n := nat_of_ascii c in
  if (((65 <=? n) && (n <=? 90))
      || ((192 <=? n) && (n <=? 222) && negb (n =? 215)))%nat
  then ascii_of_nat (n + 32) else c.

(** [s.lower()] *)
Fixpoint lower (s : string) : string :=
  match s with
  | EmptyString => EmptyString
  | String c s' => String (lower_char c) (lower s')
  end.

(** [any(p(c) for c in s)] and [all(p(c) for c in s)] *)
Fixpoint any_char (p : ascii -> bool) (s : string) : bool :=
  match s with
  | EmptyString => false
  | String c s' => p c || any_char p s'
  end.

Fixpoint all_char (p : ascii -> bool) (s : string) : bool :=
  match s with
  | EmptyString => true
  | String c s' => p c && all_char p s'
  end.

(** [s.count(c)] for a one-character [c]. *)
Fixpoint count_char (c : ascii) (s : string) : nat :=
  match s with
  | EmptyString => 0
  | String d s' => (if Ascii.eqb d c then 1 else 0) + count_char c s'
  end.

(** [s.split(sep)] for a one-character separator: never the empty list. *)
Fixpoint split (sep : ascii) (s : string) : list string :=
  match s with
  | EmptyString => [EmptyString]
  | String c s' =>
      if Ascii.eqb c sep then EmptyString :: split sep s'
      else match split sep s' with
           | [] => [String c EmptyString]
           | l :: ls => String c l :: ls
           end
  end.

(** [sep.join(parts)] *)
Definition join (sep : string) (parts : list string) : string :=
  String.concat sep parts.

(** Truthiness of a [str]: non-empty. *)
Definition truthy (s : string) : bool :=
  match s with EmptyString => false | String _ _ => true end.

(** An f-string field holding an [Optional[str]]: [None] prints as its name. *)
Definition fmt (o : option string) : string :=
  match o with Some s => s | None => "None" end.

End PyStr.

(** ** The fragment of Python's [re] that [app.py] uses

    Patterns are built from literals, character classes, greedy stars of a
    class and the lazy optional group [(?:r)??].  Matching is the
    backtracking search of [re]: alternatives are tried in priority order and
    the first complete match wins.  The continuation receives the text left
    after the part matched so far. *)

Module Re.

Inductive regex : Type :=
| Lit (s : string)
| LitI (s : string)
| Cls (p : ascii -> bool)
| Star (p : ascii -> bool)
| Seq (r1 r2 : regex)
| LazyOpt (r : regex).

(** Literal text under [re.IGNORECASE]. *)
Fixpoint prefix_nocase (p s : string) : bool :=
  match p, s with
  | EmptyString, _ => true
  | String _ _, EmptyString => false
  | String a p', String b s' =>
      Ascii.eqb (PyStr.lower_char a) (PyStr.lower_char b) && prefix_nocase p' s'
  end.

(** Greedy [c*]: the longest run first, then shorter ones. *)
Fixpoint star_k (p : ascii -> bool) (s : string)
    (k : string -> option string) : option string :=
  match s with
  | EmptyString => k s
  | String c s' =>
      if p c
      then match star_k p s' k with
           | Some rest => Some rest
           | None => k s
           end
      else k s
  end.

Fixpoint match_k (r : regex) (s : string)
    (k : string -> option string) : option string :=
  match r with
  | Lit l =>
      if String.prefix l s then k (PyStr.drop (String.length l) s) else None
  | LitI l =>
      if prefix_nocase l s then k (PyStr.drop (String.length l) s) else None
  | Cls p =>
      match s with
      | String c s' => if p c then k s' else None
      | EmptyString => None
      end
  | Star p => star_k p s k
  | Seq r1 r2 => match_k r1 s (fun s' => match_k r2 s' k)
  | LazyOpt r1 =>
      match k s with
      | Some rest => Some rest
      | None => match_k r1 s k
      end
  end.

(** [pattern.match(s)]: the text left after the match at the start of [s]. *)
Definition match_at (r : regex) (s : string) : option string :=
  match_k r s Some.

(** [re.sub(r, repl, s)] with a replacement free of group references: the
    matches are found left to right and do not overlap; an empty match is
    replaced where it stands and the scan moves one character on. *)
Fixpoint sub_go (r : regex) (repl : string) (skip : nat) (s : string) : string :=
  match s with
  | EmptyString =>
      match skip, match_at r EmptyString with
      | O, Some _ => repl
      | _, _ => EmptyString
      end
  | String c s' =>
      match skip with
      | S k => sub_go r repl k s'
      | O =>
          match match_at r s with
          | Some rest =>
              match String.length s - String.length rest with
              | O => repl ++ String c (sub_go r repl 0 s')
              | S n => repl ++ sub_go r repl n s'
              end
          | None => String c (sub_go r repl 0 s')
          end
      end
  end.

Definition sub (r : regex) (repl s : string) : string := sub_go r repl 0 s.

(** A run of [p] characters cannot go on into [s]. *)
Definition stops (p : ascii -> bool) (s : string) : bool :=
  match s with
  | EmptyString => true
  | String c _ => negb (p c)
  end.

End Re.

Infix "-+-" := Re.Seq (at level 60, right associativity).

(** ** [csv.DictWriter] with the default [excel] dialect

    A cell is [None] or the text [str] gives the value; a row is a [dict],
    kept as the list of its items in insertion order. *)

Module Csv.

Definition cell : Type := option string.
Definition row : Type := list (string * cell).

Definition keys (r : row) : list string := map fst r.

(** [rowdict.get(key, restval)] *)
Fixpoint get (r : row) (key : string) (restval : cell) : cell :=
  match r with
  | [] => restval
  | (k, v) :: r' => if String.eqb k key then v else get r' key restval
  end.

Definition mem (k : string) (ks : list string) : bool :=
  existsb (String.eqb k) ks.

(** The characters of the line terminator, carriage return and line feed. *)
Definition is_line_terminator (c : ascii) : bool :=
  Ascii.eqb c "013"%char || Ascii.eqb c "010"%char.

(** The characters that force a field into quotes: the delimiter, the quote
    character and the characters of the line terminator. *)
Definition special (c : ascii) : bool :=
  Ascii.eqb c ","%char || Ascii.eqb c "034"%char || is_line_terminator c.

(** [doublequote=True]: a quote character inside a field is written twice. *)
Fixpoint double_quotes (s : string) : string :=
  match s with
  | EmptyString => EmptyString
  | String c s' =>
      if Ascii.eqb c "034"%char
      then String c (String c (double_quotes s'))
      else String c (double_quotes s')
  end.

(** [QUOTE_MINIMAL] *)
Definition field (s : string) : string :=
  if PyStr.any_char special s then DQ ++ double_quotes s ++ DQ else s.

(** The text of a cell: [None] is written as the empty field. *)
Definition cell_text (c : cell) : string :=
  match c with Some s => s | None => EmptyString end.

(** [writer.writerow(fields)]: a record that is one empty field is written
    as a pair of quotes, so that it is not an empty line. *)
Definition writerow (fields : list string) : string :=
  match fields with
  | [EmptyString] => DQ ++ DQ ++ CRLF
  | _ => PyStr.join "," (map field fields) ++ CRLF
  end.

(** [rowdict.keys() - fieldnames] is a set, and the text of the exception
    lists its members as the iteration of the set yields them.  That order
    follows the hash seed of the process; what is known of it is that the
    members are the keys of the row outside [fieldnames].  [set_difference]
    is the set as it is iterated in the process at hand. *)
Class HashOrder : Type := {
  set_difference : list string -> list string -> list string;
  set_difference_spec (ks fieldnames : list string) :
    Permutation (set_difference ks fieldnames)
                (List.filter (fun k => negb (mem k fieldnames)) ks)
}.

(** The process in which such a set yields its members in the order of the
    row. *)
Definition insertion_order : HashOrder :=
  {| set_difference ks fieldnames :=
       List.filter (fun k => negb (mem k fieldnames)) ks;
     set_difference_spec ks fieldnames := Permutation_refl _ |}.

(** [DictWriter._dict_to_list] with [extrasaction='raise'], [restval='']:
    the keys outside [fieldnames] when there are some, as the set yields
    them, else the cells in the order of [fieldnames]. *)
Definition dict_to_list {order : HashOrder} (fieldnames : list string) (rowdict : row)
  : list string + list cell :=
  match set_difference (keys rowdict) fieldnames with
  | [] => inr (map (fun k => get rowdict k (Some EmptyString)) fieldnames)
  | wrong => inl wrong
  end.

(** [DictWriter.writerow] *)
Definition dict_writerow {order : HashOrder} (fieldnames : list string) (rowdict : row)
  : list string + string :=
  match dict_to_list fieldnames rowdict with
  | inl wrong => inl wrong
  | inr cells => inr (writerow (map cell_text cells))
  end.

(** [DictWriter.writerows]: stops at the first row that raises. *)
Fixpoint dict_writerows {order : HashOrder} (fieldnames : list string) (rows : list row)
  : list string + string :=
  match rows with
  | [] => inr EmptyString
  | r :: rows' =>
      match dict_writerow fieldnames r with
      | inl wrong => inl wrong
      | inr line =>
          match dict_writerows fieldnames rows' with
          | inl wrong => inl wrong
          | inr rest => inr (line ++ rest)
          end
      end
  end.

(** [DictWriter.writeheader]: the row that maps every field name to itself. *)
Definition writeheader (fieldnames : list string) : string :=
  writerow fieldnames.

End Csv.

(** ** Exceptions and results *)

(** The instances of [Exception]. *)
Inductive exn : Type :=
| ValueError (fields : list string)   (* csv: keys outside fieldnames *)
| RuntimeError (msg : string)         (* raised by [execute_r_code] *)
| Raised (msg : string).              (* any other one, with its text *)

Definition result (A : Type) : Type := exn + A.

(** What a program under [exec] can raise: an instance of [Exception], or an
    exception outside that class, given by the name of its class and its
    text.  [SystemExit] (raised by [sys.exit()] and [exit()]),
    [KeyboardInterrupt], [GeneratorExit] and the classes a program derives
    from [BaseException] itself are of the second kind, and
    [except Exception] lets them pass. *)
Inductive raised : Type :=
| Exception (e : exn)
| BaseException (cls text : string).

Definition outcome (A : Type) : Type := raised + A.

(** [str(e)]; the [repr] of a field name is taken to be the name between
    single quotes (so it is for names free of quotes, backslashes and control
    characters). *)
Definition str_exn (e : exn) : string :=
  match e with
  | ValueError fields =>
      "dict contains fields not in fieldnames: "
      ++ PyStr.join ", " (map (fun k => "'" ++ k ++ "'") fields)
  | RuntimeError msg => msg
  | Raised msg => msg
  end.

(** ** The embedded path: [execute_python_code] *)

(** [{...}.get(key, default)] on a dict literal with distinct keys. *)
Fixpoint dict_get {V : Type} (d : list (string * V)) (key : string)
    (default : V) : V :=
  match d with
  | [] => default
  | (k, v) :: d' => if String.eqb k key then v else dict_get d' key default
  end.

(** [if not choice: choice = 'default'] *)
Definition or_default (choice : option string) : string :=
  match choice with
  | Some c => if PyStr.truthy c then c else "default"
  | None => "default"
  end.

Definition image_bg_table : list (string * option string) :=
  [ ("transparent", None);
    ("white", Some "#f3f3f3");
    ("blue", Some "#0b1220");
    ("default", Some "#0a0a0a") ].

Definition map_image_bg (choice : option string) : option string :=
  let choice := or_default choice in
  let choice_l := PyStr.lower choice in
  dict_get image_bg_table choice_l (Some "#0a0a0a").

Definition chart_bg_table : list (string * option string) :=
  [ ("transparent", None);
    ("white", Some "#ffffff");
    ("blue", Some "#8ac0db");
    ("green", Some "#8adba5");
    ("yellow", Some "#fee14e");
    ("orange", Some "#fd732d");
    ("purple", Some "#ce8adb");
    ("teal", Some "#76d3cf");
    ("default", Some "#111827") ].

Definition map_chart_bg (choice : option string) : option string :=
  let choice := or_default choice in
  let choice_l := PyStr.lower choice in
  dict_get chart_bg_table choice_l (Some "#111827").

(** The resolved style: [None] stands for the transparent figure, and for
    the transparent or unset panel. *)
Record ResolvedStyle : Type := {
  figure_bg : option string;
  panel_bg : option string
}.

Definition resolve_style (img_bg_choice chart_bg_choice : option string)
  : ResolvedStyle :=
  {| figure_bg := map_image_bg img_bg_choice;
     panel_bg := match chart_bg_choice with
                 | Some _ => map_chart_bg chart_bg_choice
                 | None => None
                 end |}.

(** [img_bg_choice == 'transparent'] *)
Definition is_transparent_choice (img_bg_choice : option string) : bool :=
  match img_bg_choice with
  | Some c => String.eqb c "transparent"
  | None => false
  end.

Definition panel_injection_transparent (panel_bg : option string) : string :=
  match panel_bg with
  | None => ""
  | Some c =>
      "# Apply chart panel background if requested and not transparent" ++ LF ++
      "try:" ++ LF ++
      "    fig = plt.gcf()" ++ LF ++
      "    for ax in fig.get_axes():" ++ LF ++
      "        ax.set_facecolor('" ++ c ++ "')" ++ LF ++
      "except Exception:" ++ LF ++
      "    pass" ++ LF
  end.

Definition panel_injection_opaque (panel_bg : option string) : string :=
  match panel_bg with
  | None => ""
  | Some c =>
      "# Apply chart panel background if requested" ++ LF ++
      "try:" ++ LF ++
      "    fig = plt.gcf()" ++ LF ++
      "    for ax in fig.get_axes():" ++ LF ++
      "        ax.set_facecolor('" ++ c ++ "')" ++ LF ++
      "except Exception:" ++ LF ++
      "    pass" ++ LF
  end.

Definition save_repl_transparent (panel_bg : option string) : string :=
  "fig = plt.gcf()" ++ LF ++
  "# Make outer figure transparent while keeping axes opaque" ++ LF ++
  "try:" ++ LF ++ "    fig.patch.set_alpha(0.0)" ++ LF ++
  "except Exception:" ++ LF ++ "    pass" ++ LF ++
  "for ax in fig.get_axes():" ++ LF ++
  "    try:" ++ LF ++
  "        fc = ax.get_facecolor()" ++ LF ++
  "        if isinstance(fc, tuple) and len(fc) == 4:" ++ LF ++
  "            ax.set_facecolor((fc[0], fc[1], fc[2], 1.0))" ++ LF ++
  "    except Exception:" ++ LF ++
  "        pass" ++ LF ++
  panel_injection_transparent panel_bg ++
  "plt.savefig(img_buffer, format=" ++ DQ ++ "png" ++ DQ ++
  ", bbox_inches=" ++ DQ ++ "tight" ++ DQ ++
  ", dpi=150, facecolor=(0,0,0,0), edgecolor=" ++ DQ ++ "none" ++ DQ ++
  ", transparent=False)" ++ LF ++
  "plt.close()".

Definition save_repl_opaque (figure_bg panel_bg : option string) : string :=
  "fig = plt.gcf()" ++ LF ++
  "try:" ++ LF ++
  "    fig.patch.set_facecolor('" ++ PyStr.fmt figure_bg ++ "')" ++ LF ++
  "except Exception:" ++ LF ++ "    pass" ++ LF ++
  panel_injection_opaque panel_bg ++
  "plt.savefig(img_buffer, format=" ++ DQ ++ "png" ++ DQ ++
  ", bbox_inches=" ++ DQ ++ "tight" ++ DQ ++
  ", dpi=150, facecolor=fig.get_facecolor(), edgecolor=" ++ DQ ++ "none" ++ DQ ++
  ", transparent=False)" ++ LF ++
  "plt.close()".

(** The text that takes the place of [plt.show()]. *)
Definition save_repl (img_bg_choice chart_bg_choice : option string) : string :=
  let style := resolve_style img_bg_choice chart_bg_choice in
  if is_transparent_choice img_bg_choice
  then save_repl_transparent (panel_bg style)
  else save_repl_opaque (figure_bg style) (panel_bg style).

Definition SHOW_SENTINEL : string := "plt.show()".

Definition auto_save_comment : string :=
  "# Auto-added save (no plt.show() detected)".

(** Lines 149-154: the capture step. *)
Definition capture (code : option string) (save : string) : string :=
  let modified_code := match code with Some c => c | None => "" end in
  if PyStr.contains SHOW_SENTINEL modified_code
  then PyStr.replace SHOW_SENTINEL save modified_code
  else modified_code ++ LF ++ LF ++ auto_save_comment ++ LF ++ save ++ LF.

(** The pattern of line 158, piece by piece: the literal [pd.read_csv],
    white space, an opening parenthesis, white space, a quote character
    (single or double), a run of characters that are no quote, a quote
    character, then lazily at most once the group of white space, a comma,
    white space and a run of characters other than the closing parenthesis,
    and at last white space and the closing parenthesis. *)
Definition is_quote (c : ascii) : bool :=
  Ascii.eqb c "'"%char || Ascii.eqb c "034"%char.

Definition not_quote (c : ascii) : bool := negb (is_quote c).

Definition not_rparen (c : ascii) : bool := negb (Ascii.eqb c ")"%char).

Definition pd_read_csv_pattern : Re.regex :=
  Re.Lit "pd.read_csv" -+- Re.Star PyStr.is_space -+- Re.Lit "(" -+-
  Re.Star PyStr.is_space -+- Re.Cls is_quote -+- Re.Star not_quote -+-
  Re.Cls is_quote -+-
  Re.LazyOpt (Re.Star PyStr.is_space -+- Re.Lit "," -+-
              Re.Star PyStr.is_space -+- Re.Star not_rparen) -+-
  Re.Star PyStr.is_space -+- Re.Lit ")".

Definition csv_replacement : string :=
  "pd.read_csv(io.StringIO(csv_data_string))".

(** Lines 160-165: the CSV text of the rows. *)
Definition csv_text {order : Csv.HashOrder} (csv_data : list Csv.row) : result string :=
  match csv_data with
  | [] => inr ""
  | first :: _ =>
      let fieldnames := Csv.keys first in
      match Csv.dict_writerows fieldnames csv_data with
      | inl wrong => inl (ValueError wrong)
      | inr body => inr (Csv.writeheader fieldnames ++ body)
      end
  end.

Definition is_import_line (s : string) : bool :=
  PyStr.startswith "import " s || PyStr.startswith "from " s.

(** [s and not s.startswith('#')]: a line that is neither blank nor a
    comment. *)
Definition is_code_line (s : string) : bool :=
  PyStr.truthy s && negb (PyStr.startswith "#" s).

(** Lines 171-177: the index after the last leading import line; blank and
    comment lines are passed over, any other line ends the scan. *)
Fixpoint scan_imports (i insert_index : nat) (code_lines : list string) : nat :=
  match code_lines with
  | [] => insert_index
  | line :: rest =>
      let s := PyStr.strip line in
      if is_import_line s then scan_imports (S i) (S i) rest
      else if is_code_line s then insert_index
      else scan_imports (S i) insert_index rest
  end.

(** [l.insert(i, x)] *)
Fixpoint list_insert_at {A : Type} (i : nat) (x : A) (l : list A) : list A :=
  match i, l with
  | O, _ => x :: l
  | S _, [] => [x]
  | S i', y :: l' => y :: list_insert_at i' x l'
  end.

Definition csv_literal (csv_data_string : string) : string :=
  "csv_data_string = " ++ DQ ++ DQ ++ DQ ++ csv_data_string ++ DQ ++ DQ ++ DQ.

(** Lines 166-179, given the CSV text. *)
Definition inject_lines (csv_data_string modified_code : string) : list string :=
  let modified_code := Re.sub pd_read_csv_pattern csv_replacement modified_code in
  let code_lines := PyStr.split "010" modified_code in
  let code_lines :=
    List.filter (fun line => negb (String.eqb (PyStr.strip line) "import io")) code_lines in
  let code_lines := "import io" :: code_lines in
  let insert_index := scan_imports 0 0 code_lines in
  list_insert_at insert_index (csv_literal csv_data_string) code_lines.

(** Lines 156-179: the data-injection step; [if csv_data:] holds for a
    non-empty list only. *)
Definition inject_csv {order : Csv.HashOrder}
    (csv_data : option (list Csv.row)) (modified_code : string)
  : result string :=
  match csv_data with
  | None => inr modified_code
  | Some [] => inr modified_code
  | Some rows =>
      match csv_text rows with
      | inl e => inl e
      | inr csv_data_string =>
          inr (PyStr.join LF (inject_lines csv_data_string modified_code))
      end
  end.

(** Lines 69-179: the rewritten program. *)
Definition rewritten_program {order : Csv.HashOrder}
    (code : option string) (csv_data : option (list Csv.row))
    (img_bg_choice chart_bg_choice : option string) : result string :=
  inject_csv csv_data (capture code (save_repl img_bg_choice chart_bg_choice)).

(** What the namespace handed to [exec] binds. *)
Inductive pyobj : Type :=
| BytesIO              (* the byte sink *)
| Str (s : string).

Definition exec_globals : gmap string pyobj :=
  <["img_buffer" := BytesIO]> (<["__name__" := Str "__main__"]> ∅).

(** The byte sink [img_buffer] as the program leaves it.  [exec_globals]
    binds the object itself, so the program can write to it, move its
    position, truncate it, close it, and keep views of its buffer
    ([getbuffer()]). *)
Record sink : Type := {
  sink_closed : bool;
  sink_value : list Byte.byte;   (* [getvalue()] *)
  sink_pos : nat;                (* [tell()] *)
  sink_views : nat               (* the views of the buffer still alive *)
}.

(** [img_buffer.getbuffer().nbytes]: the length of the whole content,
    whatever the position; a closed sink raises [ValueError]. *)
Definition nbytes (img_buffer : sink) : result nat :=
  if sink_closed img_buffer then inl (Raised "I/O operation on closed file.")
  else inr (length (sink_value img_buffer)).

(** [img_buffer.write(data)]: a closed sink raises [ValueError] and one with
    a live view raises [BufferError]; the data go to the position of the
    sink, over what is there, after zero bytes up to the position when it
    lies past the end. *)
Definition sink_write (data : list Byte.byte) (img_buffer : sink) : result sink :=
  if sink_closed img_buffer then inl (Raised "I/O operation on closed file.")
  else if (0 <? sink_views img_buffer)%nat
  then inl (Raised "Existing exports of data: object cannot be re-sized")
  else match data with
       | [] => inr img_buffer
       | _ :: _ =>
           let old := sink_value img_buffer in
           let pos := sink_pos img_buffer in
           let padded := (old ++ List.repeat Byte.x00 (pos - length old))%list in
           inr {| sink_closed := false;
                  sink_value :=
                    (List.firstn pos padded ++ data
                     ++ List.skipn (pos + length data) padded)%list;
                  sink_pos := pos + length data;
                  sink_views := 0 |}
       end.

(** The eight bytes every PNG file starts with. *)
Definition PNG_SIGNATURE : list Byte.byte :=
  [Byte.x89; Byte.x50; Byte.x4e; Byte.x47; Byte.x0d; Byte.x0a; Byte.x1a; Byte.x0a].

(** What running a program does, as far as [execute_python_code] sees it:
    it raises, or it ends and leaves the sink in some state. *)
Inductive exec_outcome : Type :=
| ExecRaises (e : raised)
| ExecEnds (img_buffer : sink).

Section Embedded.

Context {order : Csv.HashOrder}.

(** [exec(modified_code, exec_globals)] *)
Variable exec : string -> gmap string pyobj -> exec_outcome.

(** The chunks of the PNG file of the figure that holds the given text in
    red at its centre, at 120 dpi (lines 197-200). *)
Variable text_figure_chunks : string -> list Byte.byte.

(** The bytes that [fig.savefig(img_buffer, format='png', dpi=120)] writes,
    one write after the other: a PNG file is its signature followed by its
    chunks. *)
Definition text_figure_png (text : string) : list Byte.byte :=
  (PNG_SIGNATURE ++ text_figure_chunks text)%list.

(** Lines 69-206.  The handlers of lines 204-206 log and raise again, so
    what is raised leaves the function as it is.  The image returned is the
    content of the sink from its start ([seek(0)], line 202). *)
Definition execute_python_code (code : option string)
    (csv_data : option (list Csv.row))
    (img_bg_choice chart_bg_choice : option string) : outcome (list Byte.byte) :=
  match rewritten_program code csv_data img_bg_choice chart_bg_choice with
  | inl e => inl (Exception e)
  | inr modified_code =>
      match exec modified_code exec_globals with
      | ExecRaises e => inl e
      | ExecEnds img_buffer =>
          match nbytes img_buffer with
          | inl e => inl (Exception e)
          | inr 0 =>
              match sink_write (text_figure_png "No plot generated") img_buffer with
              | inl e => inl (Exception e)
              | inr img_buffer => inr (sink_value img_buffer)
              end
          | inr (S _) => inr (sink_value img_buffer)
          end
      end
  end.

End Embedded.

(** ** The external path: [execute_r_code] *)

Definition R_EXECUTABLE : string := "Rscript".

Definition readr_funcs : list string :=
  ["read_csv"; "read_csv2"; "read_delim"; "read_delim2"; "read_tsv"; "read_table"].

(** Lines 209-221: [readr::] and the white space after it are removed in
    front of each reader's name, whatever the case of the letters. *)
Definition strip_readr_namespace (src : string) : string :=
  fold_left
    (fun src func =>
       Re.sub (Re.LitI "readr::" -+- Re.Star PyStr.is_space -+- Re.LitI func)
              func src)
    readr_funcs src.

Fixpoint endswith_char (c : ascii) (s : string) : bool :=
  match s with
  | EmptyString => false
  | String d EmptyString => Ascii.eqb d c
  | String _ s' => endswith_char c s'
  end.

(** [os.path.join(a, b)] of [posixpath]. *)
Definition os_path_join (a b : string) : string :=
  if PyStr.startswith "/" b then b
  else if negb (PyStr.truthy a) || endswith_char "/" a then a ++ b
  else a ++ "/" ++ b.

(** The call of [subprocess.run]; [capture_output=True], [text=True] and
    [check=False] are the same in every call. *)
Record run_call : Type := {
  args : list string;
  timeout : Z;
  cwd : string
}.

(** What [subprocess.run] gives back, or how it fails. *)
Inductive proc_outcome : Type :=
| Completed (returncode : Z) (stdout stderr : string)
| Expired (msg : string)        (* [TimeoutExpired], with its text *)
| SpawnFailed (msg : string).   (* [OSError], with its text *)

(** [os.path.exists] of a file given as its content, if there is one. *)
Definition path_exists (file : option (list Byte.byte)) : bool :=
  match file with Some _ => true | None => false end.

(** Truthiness of the optional values of a request. *)
Definition truthy_rows (csv_data : option (list Csv.row)) : bool :=
  match csv_data with
  | Some (_ :: _) => true
  | _ => false
  end.

Section External.

Context {order : Csv.HashOrder}.

(** [os.path.dirname(__file__)] and the fresh temporary directory. *)
Variable module_dir : string.
Variable temp_dir : string.

Definition r_code_file : string := os_path_join temp_dir "user_script.R".
Definition output_plot_file : string := os_path_join temp_dir "chart.png".
Definition runner_script_path : string := os_path_join module_dir "run_r_script.r".
Definition csv_data_file : string := os_path_join temp_dir "data.csv".

(** Lines 235-251: the command is a list that grows by [append]. *)
Definition r_command (csv_data : option (list Csv.row))
    (img_bg_choice chart_bg_choice : option string)
    (show_grid_lines : option bool) : list string :=
  let r_command :=
    [R_EXECUTABLE; "--vanilla"; runner_script_path; r_code_file; output_plot_file] in
  let r_command :=
    if truthy_rows csv_data then (r_command ++ [csv_data_file])%list
    else r_command in
  let r_command :=
    match img_bg_choice with
    | Some c => if PyStr.truthy c then (r_command ++ [c])%list else r_command
    | None => r_command
    end in
  let r_command :=
    match chart_bg_choice with
    | Some c => if PyStr.truthy c then (r_command ++ [c])%list else r_command
    | None => r_command
    end in
  match show_grid_lines with
  | Some b => (r_command ++ [if b then "true" else "false"])%list
  | None => r_command
  end.

(** Lines 254-261 *)
Definition r_run_call (csv_data : option (list Csv.row))
    (img_bg_choice chart_bg_choice : option string)
    (show_grid_lines : option bool) : run_call :=
  {| args := r_command csv_data img_bg_choice chart_bg_choice show_grid_lines;
     timeout := 90;
     cwd := temp_dir |}.

(** The files written before the renderer starts (lines 231-245). *)
Definition r_files (code : string) (csv_data : option (list Csv.row))
  : result (list (string * string)) :=
  let script := (r_code_file, strip_readr_namespace code) in
  match csv_data with
  | Some (first :: rest) =>
      match csv_text (first :: rest) with
      | inl e => inl e
      | inr text => inr [script; (csv_data_file, text)]
      end
  | _ => inr [script]
  end.

(** The condition of the list comprehension of line 272; [and] binds
    tighter than [or]. *)
Definition relevant (line : string) : bool :=
  (PyStr.truthy (PyStr.strip line)
   && negb (PyStr.startswith "Execution halted" line)
   && PyStr.contains "Error" line)
  || PyStr.contains "error" (PyStr.lower line).

(** Lines 266-281 *)
Definition select_error (stderr_raw : string) : string :=
  let stderr := PyStr.strip stderr_raw in
  let error_lines :=
    if PyStr.truthy stderr then PyStr.split "010" stderr else [] in
  let relevant_errors := List.filter relevant error_lines in
  match relevant_errors with
  | first :: _ => PyStr.strip first
  | [] =>
      if PyStr.truthy stderr
      then match error_lines with
           | first :: _ => PyStr.take 200 (PyStr.strip first)
           | [] => "Unknown R error"
           end
      else "R script execution failed"
  end.

(** Lines 284-285 *)
Definition cap_error (clean_error : string) : string :=
  if (300 <? String.length clean_error)%nat
  then PyStr.take 300 clean_error ++ "..."
  else clean_error.

Definition no_image_note : string := " (no output image generated)".

(** Lines 288-289 *)
Definition add_note (exists_file : bool) (clean_error : string) : string :=
  if exists_file then clean_error else clean_error ++ no_image_note.

Definition ggplot2_guidance : string :=
  " - ggplot2 isn't available in the runtime. If running locally, install R and ggplot2. If on Heroku with Docker, ensure the Docker image installs ggplot2 and redeploy.".

(** Lines 292-293 *)
Definition add_guidance (clean_error : string) : string :=
  if PyStr.contains "there is no package called" (PyStr.lower clean_error)
     && PyStr.contains "ggplot2" (PyStr.lower clean_error)
  then clean_error ++ ggplot2_guidance
  else clean_error.

(** Line 295 *)
Definition r_error_msg (stderr : string) (exists_file : bool) : string :=
  "R execution error: "
  ++ add_guidance (add_note exists_file (cap_error (select_error stderr))).

(** Lines 264-303: the result, from the exit code, the diagnostic stream
    and the content of the output file when the file exists. *)
Definition r_finish (returncode : Z) (stderr : string)
    (out_file : option (list Byte.byte)) : result (list Byte.byte) :=
  if negb (returncode =? 0)%Z || negb (path_exists out_file)
  then inl (RuntimeError (r_error_msg stderr (path_exists out_file)))
  else match out_file with
       | Some bytes => inr bytes
       | None => inl (Raised "No such file or directory")
       end.

(** [subprocess.run] on the prepared directory: how the process ends, and
    the content of the output file afterwards when there is one. *)
Variable subprocess_run :
  list (string * string) -> run_call -> proc_outcome * option (list Byte.byte).

(** [code] is the text of the request; [re.sub] raises a [TypeError] on
    [None] (line 223). *)
Definition execute_r_code (code : option string)
    (csv_data : option (list Csv.row))
    (img_bg_choice chart_bg_choice : option string)
    (show_grid_lines : option bool) : result (list Byte.byte) :=
  match code with
  | None => inl (Raised "expected string or bytes-like object, got 'NoneType'")
  | Some code =>
      match r_files code csv_data with
      | inl e => inl e
      | inr files =>
          let call :=
            r_run_call csv_data img_bg_choice chart_bg_choice show_grid_lines in
          match subprocess_run files call with
          | (Completed returncode _ stderr, out_file) =>
              r_finish returncode stderr out_file
          | (Expired msg, _) => inl (Raised msg)
          | (SpawnFailed msg, _) => inl (Raised msg)
          end
      end
  end.

End External.

(** ** The request handler: [generate_chart] *)

(** The fields read from the JSON body, with the types of the adapters'
    signatures: each is absent or holds a value of its type. *)
Record ChartRequest : Type := {
  language : option string;
  code : option string;
  data : option (list Csv.row);
  imgBgChoice : option string;
  bgChoice : option string;
  chartBgChoice : option string;
  showGridLines : option bool
}.

(** What comes of a request: a file is sent, a JSON error is sent, or an
    exception outside [Exception] leaves the handler and nothing is
    answered by it. *)
Inductive response : Type :=
| SendFile (image : list Byte.byte) (mimetype : string)
| JsonError (error : string) (status : Z)
| Unhandled (cls text : string).

(** The calls a handler can make to the execution adapters. *)
Inductive adapter_call : Type :=
| CallPython (code : option string) (csv_data : option (list Csv.row))
    (img_bg_choice chart_bg_choice : option string)
| CallR (code : option string) (csv_data : option (list Csv.row))
    (img_bg_choice chart_bg_choice : option string)
    (show_grid_lines : option bool).

(** A handler: it answers, or it calls an adapter and goes on with what the
    adapter returns or raises. *)
Inductive handler (A : Type) : Type :=
| Answer (a : A)
| Invoke (c : adapter_call) (k : outcome (list Byte.byte) -> handler A).

Arguments Answer {A} a.
Arguments Invoke {A} c k.

(** [a or b] on optional strings. *)
Definition py_or (a b : option string) : option string :=
  match a with
  | Some s => if PyStr.truthy s then a else b
  | None => b
  end.

(** Lines 327-330: [except Exception] takes the instances of [Exception]
    only. *)
Definition respond (r : outcome (list Byte.byte)) : handler response :=
  match r with
  | inr image_buffer => Answer (SendFile image_buffer "image/png")
  | inl (Exception e) => Answer (JsonError (str_exn e) 500)
  | inl (BaseException cls text) => Answer (Unhandled cls text)
  end.

(** Lines 308-330 *)
Definition generate_chart (req : ChartRequest) : handler response :=
  let img_bg_choice := py_or (imgBgChoice req) (bgChoice req) in
  let chart_bg_choice := chartBgChoice req in
  match language req with
  | Some lang =>
      if String.eqb lang "python"
      then Invoke (CallPython (code req) (data req) img_bg_choice chart_bg_choice)
                  respond
      else if String.eqb lang "r"
      then Invoke (CallR (code req) (data req) img_bg_choice chart_bg_choice
                         (showGridLines req))
                  respond
      else Answer (JsonError "Invalid language specified" 400)
  | None => Answer (JsonError "Invalid language specified" 400)
  end.

(** Running a handler against the adapters: the answer and the calls made,
    in order. *)
Fixpoint run_handler {A : Type}
    (adapters : adapter_call -> outcome (list Byte.byte))
    (h : handler A) : A * list adapter_call :=
  match h with
  | Answer a => (a, [])
  | Invoke c k =>
      let '(a, calls) := run_handler adapters (k (adapters c)) in
      (a, c :: calls)
  end.

(** The two adapters behind the handler's calls; what [execute_r_code]
    raises is an instance of [Exception]. *)
Definition dispatch {order : Csv.HashOrder}
    (exec : string -> gmap string pyobj -> exec_outcome)
    (text_figure_chunks : string -> list Byte.byte)
    (module_dir temp_dir : string)
    (subprocess_run :
       list (string * string) -> run_call -> proc_outcome * option (list Byte.byte))
    (c : adapter_call) : outcome (list Byte.byte) :=
  match c with
  | CallPython code csv_data img chart =>
      execute_python_code exec text_figure_chunks code csv_data img chart
  | CallR code csv_data img chart grid =>
      match execute_r_code module_dir temp_dir subprocess_run code csv_data
              img chart grid with
      | inl e => inl (Exception e)
      | inr image_buffer => inr image_buffer
      end
  end.

(** ** The database endpoints: [get_db], [close_db], [submit_feedback],
    [track_event]

    The connection pool and the database are outside [app.py].  What they
    answer to each operation is given by two parameters that see the
    operations made so far; the operations made are recorded in order.
    What they raise are instances of [Exception] ([psycopg2.Error] and the
    like). *)

(** A JSON value of a request body; numbers are the integers. *)
#[warnings="-register-all"]
Inductive json : Type :=
| JNull
| JBool (b : bool)
| JNum (n : Z)
| JStr (s : string)
| JArr (items : list json)
| JObj (items : list (string * json)).

(** Truthiness of the Python value of a JSON value. *)
Definition json_truthy (v : json) : bool :=
  match v with
  | JNull => false
  | JBool b => b
  | JNum n => negb (n =? 0)%Z
  | JStr s => PyStr.truthy s
  | JArr items => match items with [] => false | _ :: _ => true end
  | JObj items => match items with [] => false | _ :: _ => true end
  end.

(** [data.get(key)] on the body, a dict kept as the list of its items. *)
Fixpoint json_get (data : list (string * json)) (key : string) : json :=
  match data with
  | [] => JNull
  | (k, v) :: data' => if String.eqb k key then v else json_get data' key
  end.

(** The pool object, by the arguments it was made with. *)
Inductive pool : Type :=
| SimpleConnectionPool (minconn maxconn : Z) (dsn : string).

(** Lines 29-39: the pool made when the module is loaded; [connect] tells
    whether making the pool for a database URL raises. *)
Definition init_pool (db_url : option string) (connect : string -> option exn)
  : option pool :=
  match db_url with
  | None => None
  | Some url =>
      if PyStr.truthy url
      then match connect url with
           | None => Some (SimpleConnectionPool 1 20 url)
           | Some _ => None
           end
      else None
  end.

(** A connection, by the number the pool gave it. *)
Definition conn : Type := nat.

(** The value of [g.db]: a connection or [None]. *)
Inductive dbval : Type :=
| NoConn
| Conn (c : conn).

Inductive db_op : Type :=
| Cursor (c : conn)
| Execute (c : conn) (query : string) (params : list json)
| Commit (c : conn)
| CloseCursor (c : conn)
| PutConn (c : conn).

(** An operation made, with what came of it. *)
Inductive event : Type :=
| EvGetConn (r : result conn)
| EvOp (o : db_op) (r : option exn).

(** The application context: the attributes of [g] and the operations made
    on the pool and the database so far. *)
Record world : Type := {
  g : gmap string dbval;
  trace : list event
}.

(** A computation that reads and changes the context and may raise. *)
Definition M (A : Type) : Type := world -> result A * world.

Definition ret {A : Type} (a : A) : M A := fun w => (inr a, w).

Definition bind {A B : Type} (m : M A) (k : A -> M B) : M B :=
  fun w =>
    match m w with
    | (inr a, w') => k a w'
    | (inl e, w') => (inl e, w')
    end.

(** [try: m except Exception as e: handler(e)] *)
Definition catch {A : Type} (m : M A) (handler : exn -> M A) : M A :=
  fun w =>
    match m w with
    | (inr a, w') => (inr a, w')
    | (inl e, w') => handler e w'
    end.

Notation "'let*' x ':=' m 'in' k" := (bind m (fun x => k))
  (at level 10, x name, m at level 100, k at level 200).

Notation "m ';;' k" := (bind m (fun _ => k))
  (at level 100, k at level 200, right associativity).

Section Database.

(** [postgreSQL_pool] *)
Variable postgreSQL_pool : option pool.

(** What [getconn] gives and what each database operation comes to, after
    the operations made so far. *)
Variable getconn_env : list event -> result conn.
Variable op_env : list event -> db_op -> option exn.

Definition getconn : M conn :=
  fun w =>
    let r := getconn_env (trace w) in
    (r, {| g := g w; trace := (trace w ++ [EvGetConn r])%list |}).

Definition perform (o : db_op) : M unit :=
  fun w =>
    let r := op_env (trace w) o in
    (match r with Some e => inl e | None => inr tt end,
     {| g := g w; trace := (trace w ++ [EvOp o r])%list |}).

(** [g.db = v] *)
Definition set_db (v : dbval) : M unit :=
  fun w => (inr tt, {| g := <["db" := v]> (g w); trace := trace w |}).

(** Lines 41-48 *)
Definition get_db : M dbval :=
  fun w =>
    (match g w !! "db" with
     | None =>
         match postgreSQL_pool with
         | Some _ => let* c := getconn in set_db (Conn c)
         | None => set_db NoConn
         end
     | Some _ => ret tt
     end;;
     fun w' =>
       match g w' !! "db" with
       | Some v => (inr v, w')
       | None => (inl (Raised "'_AppCtxGlobals' object has no attribute 'db'"), w')
       end) w.

(** Lines 50-55: [g.pop('db', None)], then the connection goes back to the
    pool. *)
Definition close_db : M unit :=
  fun w =>
    let db := default NoConn (g w !! "db") in
    let w' := {| g := delete "db" (g w); trace := trace w |} in
    match db, postgreSQL_pool with
    | Conn c, Some _ => perform (PutConn c) w'
    | _, _ => (inr tt, w')
    end.

(** The answers of the two endpoints: [jsonify] of one entry, with the
    status. *)
Inductive api_response : Type :=
| ApiError (error : string) (status : Z)
| ApiMessage (message : string) (status : Z).

Definition feedback_query : string :=
  LF ++ "            INSERT INTO feedback (satisfaction, comparison, customization, bugs_experienced, support_experience, improvement_suggestions, bug_details, feature_requests, email, anything_else)"
  ++ LF ++ "            VALUES (%s, %s, %s, %s, %s, %s, %s, %s, %s, %s);"
  ++ LF ++ "        ".

(** The keys read from the body, in the order of the columns. *)
Definition feedback_keys : list string :=
  [ "satisfaction"; "comparison"; "customization"; "bugs_experienced";
    "likeMost"; "improve"; "bugs"; "features"; "email"; "anythingElse" ].

(** Lines 333-359 *)
Definition submit_feedback (data : list (string * json)) : M api_response :=
  let* db_conn := get_db in
  match db_conn with
  | NoConn => ret (ApiError "Database is not configured" 500)
  | Conn c =>
      catch
        (perform (Cursor c);;
         perform (Execute c feedback_query (map (json_get data) feedback_keys));;
         perform (Commit c);;
         perform (CloseCursor c);;
         ret (ApiMessage "Feedback submitted successfully!" 201))
        (fun _ => ret (ApiError "Could not save feedback." 500))
  end.

Definition event_query : string :=
  "INSERT INTO analytics_events (event_name, event_details) VALUES (%s, %s);".

(** Lines 361-384 *)
Definition track_event (data : list (string * json)) : M api_response :=
  let* db_conn := get_db in
  match db_conn with
  | NoConn => ret (ApiError "Database is not configured" 500)
  | Conn c =>
      let event_name := json_get data "event" in
      if negb (json_truthy event_name)
      then ret (ApiError "Event name is required" 400)
      else
        catch
          (perform (Cursor c);;
           perform (Execute c event_query [event_name; JObj data]);;
           perform (Commit c);;
           perform (CloseCursor c);;
           ret (ApiMessage "Event tracked" 200))
          (fun _ => ret (ApiError "Could not track event." 500))
  end.

(** One request in its application context: [g] starts empty, the endpoint
    runs, and [close_db] runs when the context ends, also after an exception.
    The result of the endpoint, the result of the teardown and the
    operations made. *)
Definition app_context {A : Type} (endpoint : M A)
  : result A * result unit * list event :=
  let '(r, w1) := endpoint {| g := ∅; trace := [] |} in
  let '(t, w2) := close_db w1 in
  (r, t, trace w2).

End Database.

(** An operation made on the pool itself: taking a connection or giving one
    back. *)
Definition is_pool_event (ev : event) : bool :=
  match ev with
  | EvGetConn _ => true
  | EvOp (PutConn _) _ => true
  | EvOp _ _ => false
  end.

(** ** Words of the statements about tabular data *)

(** Every row has the keys of the first row. *)
Definition uniform_keys (first : Csv.row) (rows : list Csv.row) : Prop :=
  Forall (fun r => forall k, In k (Csv.keys r) <-> In k (Csv.keys first)) rows.

(** A cell whose text holds no carriage return and no line feed. *)
Definition clean_cell (c : Csv.cell) : Prop :=
  PyStr.any_char Csv.is_line_terminator (Csv.cell_text c) = false.

(** Rows whose column names and cells hold no carriage return and no line
    feed. *)
Definition clean_rows (rows : list Csv.row) : Prop :=
  Forall (fun r =>
            Forall (fun kv =>
                      PyStr.any_char Csv.is_line_terminator (fst kv) = false
                      /\ clean_cell (snd kv)) r) rows.

(** A line the import scan passes: an import, a blank line or a comment. *)
Definition is_leading_line (line : string) : bool :=
  is_import_line (PyStr.strip line) || negb (is_code_line (PyStr.strip line)).

(** * Properties *)

(** ** Text: appending, prefixes, occurrences and replacement *)

#[local] Arguments String.append !_ _ / : simpl nomatch.

Section TextFacts.

Lemma append_nil_r (s : string) : s ++ "" = s.
Proof. induction s as [|c s IH]; simpl; [reflexivity | now rewrite IH]. Qed.

Lemma append_assoc (a b c : string) : (a ++ b) ++ c = a ++ b ++ c.
Proof. induction a as [|x a IH]; simpl; [reflexivity | now rewrite IH]. Qed.

Lemma length_append (a b : string) :
  String.length (a ++ b) = String.length a + String.length b.
Proof. induction a as [|x a IH]; simpl; [reflexivity | now rewrite IH]. Qed.

Lemma prefix_nil (s : string) : String.prefix "" s = true.
Proof. now destruct s. Qed.

Lemma prefix_append (p s : string) : String.prefix p (p ++ s) = true.
Proof.
  induction p as [|c p IH]; simpl.
  - apply prefix_nil.
  - destruct (ascii_dec c c) as [_|ne]; [exact IH | now elim ne].
Qed.

Lemma prefix_split (p s : string) :
  String.prefix p s = true -> s = p ++ PyStr.drop (String.length p) s.
Proof.
  revert s; induction p as [|c p IH]; intros s H; simpl.
  - reflexivity.
  - destruct s as [|d s]; simpl in H; [discriminate|].
    destruct (ascii_dec c d) as [->|]; [|discriminate].
    simpl. now rewrite <- (IH s H).
Qed.

Lemma drop_append (a s : string) : PyStr.drop (String.length a) (a ++ s) = s.
Proof. induction a as [|c a IH]; simpl; [now destruct s | exact IH]. Qed.

Lemma occurrences_suffix (sub a b : string) :
  PyStr.occurrences sub b <= PyStr.occurrences sub (a ++ b).
Proof.
  induction a as [|c a IH]; [cbn; lia | ].
  cbn [append PyStr.occurrences].
  destruct (String.prefix sub (String c (a ++ b))); lia.
Qed.

Lemma occurrences_at_start (sub s : string) :
  1 <= PyStr.occurrences sub (sub ++ s).
Proof.
  destruct sub as [|c sub]; simpl.
  - destruct s; simpl; lia.
  - destruct (ascii_dec c c) as [_|ne]; [|now elim ne].
    rewrite prefix_append. lia.
Qed.

Lemma contains_occurrences (sub s : string) :
  PyStr.contains sub s = false <-> PyStr.occurrences sub s = 0.
Proof.
  induction s as [|c s IH]; cbn [PyStr.contains PyStr.occurrences].
  - destruct (String.prefix sub ""); cbn; split; intros; (lia || discriminate).
  - destruct (String.prefix sub (String c s)); cbn.
    + split; intros; (lia || discriminate).
    + exact IH.
Qed.

Lemma replace_go_skip (old new a s : string) :
  PyStr.replace_go old new (String.length a) (a ++ s)
  = PyStr.replace_go old new 0 s.
Proof.
  induction a as [|c a IH]; simpl; [now destruct s | exact IH].
Qed.

Lemma replace_go_absent (old new s : string) :
  PyStr.occurrences old s = 0 -> PyStr.replace_go old new 0 s = s.
Proof.
  induction s as [|c s IH]; [reflexivity|].
  cbn [PyStr.occurrences PyStr.replace_go].
  destruct (String.prefix old (String c s)); intros H; [lia|].
  now rewrite IH.
Qed.

Lemma replace_go_here (old new s : string) :
  old <> "" ->
  PyStr.replace_go old new 0 (old ++ s) = new ++ PyStr.replace_go old new 0 s.
Proof.
  intros Hne. destruct old as [|c old]; [now elim Hne|].
  change (String c old ++ s) with (String c (old ++ s)).
  cbn [PyStr.replace_go].
  change (String c (old ++ s)) with (String c old ++ s).
  rewrite prefix_append.
  replace (String.length (String c old) - 1) with (String.length old)
    by (cbn [String.length]; lia).
  now rewrite replace_go_skip.
Qed.

(** One occurrence: the text before it and the text after it are kept, and
    the occurrence is replaced. *)
Lemma replace_go_once (old new pre post : string) :
  old <> "" ->
  PyStr.occurrences old (pre ++ old ++ post) = 1 ->
  PyStr.replace_go old new 0 (pre ++ old ++ post) = pre ++ new ++ post.
Proof.
  intros Hne. induction pre as [|x pre IH]; intros H.
  - change ("" ++ old ++ post) with (old ++ post) in *.
    change ("" ++ new ++ post) with (new ++ post).
    rewrite replace_go_here by assumption. f_equal.
    apply replace_go_absent.
    destruct old as [|c old]; [now elim Hne|].
    change (String c old ++ post) with (String c (old ++ post)) in H.
    cbn [PyStr.occurrences] in H.
    change (String c (old ++ post)) with (String c old ++ post) in H.
    rewrite prefix_append in H.
    pose proof (occurrences_suffix (String c old) old post). lia.
  - change (String x pre ++ old ++ post)
      with (String x (pre ++ old ++ post)) in *.
    change (String x pre ++ new ++ post) with (String x (pre ++ new ++ post)).
    cbn [PyStr.occurrences] in H.
    pose proof (occurrences_suffix old pre (old ++ post)) as Hs.
    pose proof (occurrences_at_start old post) as H1.
    cbn [PyStr.replace_go].
    destruct (String.prefix old (String x (pre ++ old ++ post))); [lia|].
    f_equal. apply IH. lia.
Qed.

End TextFacts.

(** ** The capture step *)

Example replace_twice : PyStr.replace "ab" "X" "abcabab" = "XcXX".
Proof. reflexivity. Qed.

Example replace_leftmost : PyStr.replace "aa" "b" "aaa" = "ba".
Proof. reflexivity. Qed.

Example replace_empty_pattern : PyStr.replace "" "-" "abc" = "-a-b-c-".
Proof. reflexivity. Qed.

Example capture_near_miss :
  capture (Some "plt.show( )") "SAVE"
  = "plt.show( )" ++ LF ++ LF ++ auto_save_comment ++ LF ++ "SAVE" ++ LF.
Proof. reflexivity. Qed.

(** C1. The display call [plt.show()] is matched as literal text.  A source
    text with no occurrence is left unchanged by the replacement step and
    the save sequence is appended at its end; in a source text with exactly
    one occurrence that occurrence, and nothing else, is replaced by the save
    sequence.  Both cases return a program: the step cannot fail. *)
Theorem capture_display_call {order : Csv.HashOrder}
    (img chart : option string) (code : string) :
  (PyStr.occurrences SHOW_SENTINEL code = 0 ->
   PyStr.replace SHOW_SENTINEL (save_repl img chart) code = code
   /\ rewritten_program (Some code) None img chart
      = inr (code ++ LF ++ LF ++ auto_save_comment ++ LF
                  ++ save_repl img chart ++ LF))
  /\ (forall pre post : string,
        code = pre ++ SHOW_SENTINEL ++ post ->
        PyStr.occurrences SHOW_SENTINEL code = 1 ->
        rewritten_program (Some code) None img chart
        = inr (pre ++ save_repl img chart ++ post)).
Proof.
  split.
  - intros H0. split.
    + apply replace_go_absent, H0.
    + unfold rewritten_program, inject_csv, capture.
      apply contains_occurrences in H0. now rewrite H0.
  - intros pre post -> H1.
    unfold rewritten_program, inject_csv, capture.
    destruct (PyStr.contains SHOW_SENTINEL (pre ++ SHOW_SENTINEL ++ post)) eqn:E.
    + f_equal. apply replace_go_once; [discriminate | exact H1].
    + apply contains_occurrences in E. lia.
Qed.

(** The two cases of C1 on a three-line program and on a program without a
    display call. *)
Lemma capture_display_call_witness :
  let order := Csv.insertion_order in
  rewritten_program (Some ("plt.plot(xs)" ++ LF ++ "plt.show()" ++ LF ++ "print(1)"))
          None (Some "white") None
  = inr ("plt.plot(xs)" ++ LF ++ save_repl (Some "white") None ++ LF ++ "print(1)")
  /\ rewritten_program (Some "plt.plot(xs)") None None None
     = inr ("plt.plot(xs)" ++ LF ++ LF ++ auto_save_comment ++ LF
            ++ save_repl None None ++ LF).
Proof.
  split.
  - apply (proj2 (capture_display_call (Some "white") None
                    ("plt.plot(xs)" ++ LF ++ "plt.show()" ++ LF ++ "print(1)"))
             ("plt.plot(xs)" ++ LF) (LF ++ "print(1)")); reflexivity.
  - apply (proj1 (capture_display_call None None "plt.plot(xs)")). reflexivity.
Defined.

(** ** Style resolution *)

Section StyleFacts.

Lemma dict_get_absent {V : Type} (d : list (string * V)) (key : string) (v : V) :
  ~ In key (map fst d) -> dict_get d key v = v.
Proof.
  induction d as [|[k w] d IH]; intros Hn; [reflexivity|].
  cbn [dict_get]. destruct (String.eqb_spec k key) as [->|_].
  - elim Hn. now left.
  - apply IH. intros Hin. apply Hn. now right.
Qed.

Lemma lower_char_idempotent (c : ascii) :
  PyStr.lower_char (PyStr.lower_char c) = PyStr.lower_char c.
Proof. destruct c as [[] [] [] [] [] [] [] []]; reflexivity. Qed.

Lemma lower_idempotent (s : string) : PyStr.lower (PyStr.lower s) = PyStr.lower s.
Proof.
  induction s as [|c s IH]; [reflexivity|].
  cbn [PyStr.lower]. now rewrite lower_char_idempotent, IH.
Qed.

Lemma lower_truthy (s : string) : PyStr.truthy (PyStr.lower s) = PyStr.truthy s.
Proof. now destruct s. Qed.

Lemma or_default_lower (c : string) :
  PyStr.lower (or_default (Some (PyStr.lower c))) = PyStr.lower (or_default (Some c)).
Proof.
  unfold or_default. rewrite lower_truthy.
  destruct (PyStr.truthy c); [apply lower_idempotent | reflexivity].
Qed.

(** The resolved colours do not depend on the case of the choices. *)
Lemma resolve_style_lower (img chart : option string) :
  resolve_style (option_map PyStr.lower img) (option_map PyStr.lower chart)
  = resolve_style img chart.
Proof.
  unfold resolve_style, map_image_bg, map_chart_bg.
  destruct img as [i|], chart as [c|]; cbn [option_map];
    rewrite ?or_default_lower; reflexivity.
Qed.

Lemma lower_transparent (c : string) :
  c = "transparent" -> PyStr.lower c = "transparent".
Proof. now intros ->. Qed.

(** Away from the transparent figure the save sequence does not depend on
    the case of the choices either. *)
Lemma save_repl_lower (img chart : string) :
  PyStr.lower img <> "transparent" ->
  save_repl (Some (PyStr.lower img)) (Some (PyStr.lower chart))
  = save_repl (Some img) (Some chart).
Proof.
  intros Hn. unfold save_repl.
  pose proof (resolve_style_lower (Some img) (Some chart)) as Hs.
  cbn [option_map] in Hs. rewrite Hs.
  unfold is_transparent_choice.
  destruct (String.eqb_spec (PyStr.lower img) "transparent") as [E|_];
    [now elim Hn|].
  destruct (String.eqb_spec img "transparent") as [E|_]; [|reflexivity].
  elim Hn. now apply lower_transparent.
Qed.

End StyleFacts.

Example figure_white : map_image_bg (Some "WHITE") = Some "#f3f3f3".
Proof. reflexivity. Qed.

Example figure_transparent : map_image_bg (Some "Transparent") = None.
Proof. reflexivity. Qed.

Example panel_teal : map_chart_bg (Some "Teal") = Some "#76d3cf".
Proof. reflexivity. Qed.

Example panel_unknown : map_chart_bg (Some "magenta") = Some "#111827".
Proof. reflexivity. Qed.

(** C5, as the claim states it, fails for an absent panel choice: the panel
    colour is then left unset, not given the default colour. *)
Lemma style_absent_panel_unset :
  panel_bg (resolve_style None None) = None
  /\ panel_bg (resolve_style None None) <> Some "#111827"
  /\ map_chart_bg (Some "default") = Some "#111827".
Proof. repeat split; [discriminate]. Qed.

(** C5 (amended).  Style resolution is a total function.  A choice is looked
    up by its lower-case form in the table of its kind; an unrecognized
    choice of either kind, the empty choice, and an absent figure choice give
    the default colour of the kind; an absent panel choice leaves the panel
    colour unset. *)
Theorem style_resolution (img chart : option string) :
  (forall c v, img = Some c -> In (PyStr.lower c, v) image_bg_table ->
     figure_bg (resolve_style img chart) = v)
  /\ (forall c, img = Some c -> ~ In (PyStr.lower c) (map fst image_bg_table) ->
        figure_bg (resolve_style img chart) = Some "#0a0a0a")
  /\ (img = None -> figure_bg (resolve_style img chart) = Some "#0a0a0a")
  /\ (forall c v, chart = Some c -> In (PyStr.lower c, v) chart_bg_table ->
        panel_bg (resolve_style img chart) = v)
  /\ (forall c, chart = Some c -> ~ In (PyStr.lower c) (map fst chart_bg_table) ->
        panel_bg (resolve_style img chart) = Some "#111827")
  /\ (chart = None -> panel_bg (resolve_style img chart) = None).
Proof.
  repeat split.
  - intros c v -> Hin. cbn [resolve_style figure_bg]. unfold map_image_bg, or_default.
    destruct c as [|a c]; [cbn in Hin; intuition congruence|].
    cbn [PyStr.truthy]. cbn [image_bg_table In] in Hin.
    repeat (destruct Hin as [Hin|Hin];
            [apply pair_equal_spec in Hin; destruct Hin as [<- <-]; reflexivity|]).
    contradiction.
  - intros c -> Hn. cbn [resolve_style figure_bg]. unfold map_image_bg, or_default.
    destruct c as [|a c]; [reflexivity|]. cbn [PyStr.truthy].
    now apply dict_get_absent.
  - now intros ->.
  - intros c v -> Hin. cbn [resolve_style panel_bg]. unfold map_chart_bg, or_default.
    destruct c as [|a c]; [cbn in Hin; intuition congruence|].
    cbn [PyStr.truthy]. cbn [chart_bg_table In] in Hin.
    repeat (destruct Hin as [Hin|Hin];
            [apply pair_equal_spec in Hin; destruct Hin as [<- <-]; reflexivity|]).
    contradiction.
  - intros c -> Hn. cbn [resolve_style panel_bg]. unfold map_chart_bg, or_default.
    destruct c as [|a c]; [reflexivity|]. cbn [PyStr.truthy].
    now apply dict_get_absent.
  - now intros ->.
Qed.

(** C5 (amended) on two tags in capitals, an unrecognized figure choice and
    an absent panel choice. *)
Lemma style_resolution_witness :
  figure_bg (resolve_style (Some "Blue") (Some "TEAL")) = Some "#0b1220"
  /\ panel_bg (resolve_style (Some "Blue") (Some "TEAL")) = Some "#76d3cf"
  /\ figure_bg (resolve_style (Some "neon") None) = Some "#0a0a0a"
  /\ panel_bg (resolve_style (Some "neon") None) = None.
Proof.
  pose proof (style_resolution (Some "Blue") (Some "TEAL")) as (Hi & _ & _ & Hc & _).
  pose proof (style_resolution (Some "neon") None) as (_ & Hu & _ & _ & _ & Hn).
  split; [|split; [|split]].
  - apply (Hi "Blue"); [reflexivity | cbn; tauto].
  - apply (Hc "TEAL"); [reflexivity | cbn; tauto].
  - apply (Hu "neon"); [reflexivity | cbn; intuition discriminate].
  - apply Hn. reflexivity.
Defined.

(** C6 (the code at the failing input).  The colours are resolved without
    regard to case, but the test that selects the transparent save sequence
    compares the choice as it was sent: [Transparent] resolves to the
    transparent figure and still gets the opaque sequence, which sets the
    face colour to the text [None]. *)
Theorem transparent_choice_case_sensitive :
  (forall img chart : option string,
     resolve_style (option_map PyStr.lower img) (option_map PyStr.lower chart)
     = resolve_style img chart)
  /\ resolve_style (Some "Transparent") None = resolve_style (Some "transparent") None
  /\ save_repl (Some "transparent") None = save_repl_transparent None
  /\ save_repl (Some "Transparent") None = save_repl_opaque None None
  /\ PyStr.contains "fig.patch.set_facecolor('None')"
       (save_repl (Some "Transparent") None) = true
  /\ PyStr.contains "fig.patch.set_alpha(0.0)"
       (save_repl (Some "Transparent") None) = false
  /\ PyStr.contains "fig.patch.set_alpha(0.0)"
       (save_repl (Some "transparent") None) = true.
Proof.
  split; [exact resolve_style_lower|].
  repeat split; vm_compute; reflexivity.
Qed.

(** ** The CSV text of the rows *)

Section CsvFacts.

Context {order : Csv.HashOrder}.

Lemma count_char_append (c : ascii) (a b : string) :
  PyStr.count_char c (a ++ b) = PyStr.count_char c a + PyStr.count_char c b.
Proof.
  induction a as [|x a IH]; [reflexivity|].
  cbn [append PyStr.count_char]. rewrite IH. lia.
Qed.

Lemma count_char_double_quotes (c : ascii) (s : string) :
  c <> "034"%char ->
  PyStr.count_char c (Csv.double_quotes s) = PyStr.count_char c s.
Proof.
  intros Hc. induction s as [|x s IH]; [reflexivity|].
  cbn [Csv.double_quotes]. destruct (Ascii.eqb_spec x "034"%char) as [->|_].
  - cbn [PyStr.count_char]. rewrite IH.
    destruct (Ascii.eqb_spec "034"%char c) as [E|_]; [now elim Hc | lia].
  - cbn [PyStr.count_char]. now rewrite IH.
Qed.

Lemma count_char_field (c : ascii) (s : string) :
  c <> "034"%char -> PyStr.count_char c (Csv.field s) = PyStr.count_char c s.
Proof.
  intros Hc. unfold Csv.field. destruct (PyStr.any_char Csv.special s); [|reflexivity].
  rewrite !count_char_append, count_char_double_quotes by assumption.
  unfold DQ. cbn [PyStr.count_char].
  destruct (Ascii.eqb_spec "034"%char c) as [E|_]; [now elim Hc | lia].
Qed.

Lemma count_char_join (c : ascii) (sep : string) (parts : list string) :
  PyStr.count_char c sep = 0 ->
  Forall (fun s => PyStr.count_char c s = 0) parts ->
  PyStr.count_char c (PyStr.join sep parts) = 0.
Proof.
  intros Hsep Hall. unfold PyStr.join.
  induction Hall as [|s parts Hs Hall IH]; [reflexivity|].
  cbn [String.concat]. destruct parts as [|t parts]; [exact Hs|].
  rewrite !count_char_append, Hs, Hsep, IH. reflexivity.
Qed.

(** A text without line terminators holds no line feed and no carriage
    return. *)
Lemma no_terminator_count (s : string) :
  PyStr.any_char Csv.is_line_terminator s = false ->
  PyStr.count_char "010" s = 0 /\ PyStr.count_char "013" s = 0.
Proof.
  induction s as [|x s IH]; [now split|].
  cbn [PyStr.any_char PyStr.count_char]. intros H.
  apply orb_false_iff in H as [Hx Hs]. destruct (IH Hs) as [-> ->].
  unfold Csv.is_line_terminator in Hx. apply orb_false_iff in Hx as [-> ->].
  now split.
Qed.

(** A record whose fields hold no line terminator is one line. *)
Lemma writerow_one_line (fields : list string) :
  Forall (fun s => PyStr.any_char Csv.is_line_terminator s = false) fields ->
  PyStr.count_char "010" (Csv.writerow fields) = 1
  /\ PyStr.count_char "013" (Csv.writerow fields) = 1.
Proof.
  intros Hall.
  assert (Hjoin : forall c : ascii, c = "010"%char \/ c = "013"%char ->
            PyStr.count_char c (PyStr.join "," (map Csv.field fields) ++ CRLF) = 1).
  { intros c Hc. rewrite count_char_append, count_char_join.
    - destruct Hc as [-> | ->]; reflexivity.
    - destruct Hc as [-> | ->]; reflexivity.
    - apply List.Forall_map. eapply List.Forall_impl; [|exact Hall].
      intros s Hs. cbn beta. rewrite count_char_field.
      + apply no_terminator_count in Hs as [Hl Hr].
        destruct Hc as [-> | ->]; assumption.
      + destruct Hc as [-> | ->]; discriminate. }
  unfold Csv.writerow.
  destruct fields as [|[|x s] [|t fields]];
    try (split; apply Hjoin; auto); split; reflexivity.
Qed.

Lemma mem_In (k : string) (ks : list string) : Csv.mem k ks = true <-> In k ks.
Proof.
  unfold Csv.mem. rewrite existsb_exists. split.
  - intros (x & Hx & E). apply String.eqb_eq in E. now subst.
  - intros H. exists k. split; [exact H | apply String.eqb_refl].
Qed.

(** The set of the keys outside [fieldnames] is empty when the list of them
    is, and it has the members of that list. *)
Lemma set_difference_nil (ks fieldnames : list string) :
  List.filter (fun k => negb (Csv.mem k fieldnames)) ks = [] ->
  Csv.set_difference ks fieldnames = [].
Proof.
  intros E. pose proof (Csv.set_difference_spec ks fieldnames) as P.
  rewrite E in P. now apply Permutation_nil_r in P.
Qed.

Lemma set_difference_In (ks fieldnames : list string) (k : string) :
  In k (Csv.set_difference ks fieldnames) <-> In k ks /\ ~ In k fieldnames.
Proof.
  pose proof (Csv.set_difference_spec ks fieldnames) as P.
  split.
  - intros Hk. apply (Permutation_in _ P) in Hk.
    apply filter_In in Hk as [Hk Hm]. split; [exact Hk|].
    intros Hf. apply mem_In in Hf. rewrite Hf in Hm. discriminate.
  - intros [Hk Hf]. apply (Permutation_in _ (Permutation_sym P)).
    apply filter_In. split; [exact Hk|].
    destruct (Csv.mem k fieldnames) eqn:E; [|reflexivity].
    apply mem_In in E. now elim Hf.
Qed.

Lemma dict_to_list_uniform (fieldnames : list string) (r : Csv.row) :
  (forall k, In k (Csv.keys r) -> In k fieldnames) ->
  Csv.dict_to_list fieldnames r
  = inr (map (fun k => Csv.get r k (Some "")) fieldnames).
Proof.
  intros Hsub. unfold Csv.dict_to_list.
  rewrite set_difference_nil; [reflexivity|].
  induction (Csv.keys r) as [|k ks IH]; [reflexivity|].
  cbn [List.filter].
  rewrite (proj2 (mem_In k fieldnames)) by (apply Hsub; now left).
  cbn [negb]. apply IH. intros k' Hk'. apply Hsub. now right.
Qed.

Lemma get_clean (r : Csv.row) (k : string) :
  Forall (fun kv => clean_cell (snd kv)) r ->
  clean_cell (Csv.get r k (Some "")).
Proof.
  induction 1 as [|[k' v] r Hv _ IH]; [reflexivity|].
  cbn [Csv.get]. destruct (String.eqb k' k); [exact Hv | exact IH].
Qed.

Lemma dict_writerows_lines (fieldnames : list string) (rows : list Csv.row) :
  Forall (fun r => forall k, In k (Csv.keys r) -> In k fieldnames) rows ->
  Forall (fun r => Forall (fun kv => clean_cell (snd kv)) r) rows ->
  exists body,
    Csv.dict_writerows fieldnames rows = inr body
    /\ PyStr.count_char "010" body = length rows
    /\ PyStr.count_char "013" body = length rows.
Proof.
  intros Hkeys. induction Hkeys as [|r rows Hr _ IH]; intros Hclean.
  - exists "". now split.
  - apply List.Forall_cons_iff in Hclean as [Hc Hclean].
    destruct (IH Hclean) as (body & Hbody & Hlf & Hcr).
    cbn [Csv.dict_writerows]. unfold Csv.dict_writerow.
    rewrite dict_to_list_uniform by exact Hr. rewrite Hbody.
    eexists. split; [reflexivity|].
    rewrite !count_char_append, Hlf, Hcr.
    destruct (writerow_one_line
                (map Csv.cell_text (map (fun k => Csv.get r k (Some "")) fieldnames)))
      as [-> ->]; [|split; reflexivity].
    rewrite List.map_map. apply List.Forall_map, List.Forall_forall. intros k _.
    apply get_clean, Hc.
Qed.

End CsvFacts.

(** ** The substitution of the data-loading calls *)

Section ReFacts.

Lemma star_k_cons (p : ascii -> bool) (c : ascii) (s : string)
    (k : string -> option string) :
  Re.star_k p (String c s) k
  = if p c
    then match Re.star_k p s k with
         | Some rest => Some rest
         | None => k (String c s)
         end
    else k (String c s).
Proof. reflexivity. Qed.

Lemma star_k_stop (p : ascii -> bool) (s : string) (k : string -> option string) :
  Re.stops p s = true -> Re.star_k p s k = k s.
Proof.
  destruct s as [|c s]; [reflexivity|]. cbn [Re.stops Re.star_k].
  intros H. apply negb_true_iff in H. now rewrite H.
Qed.

(** A greedy star takes the whole run when the rest of the pattern matches
    after it. *)
Lemma star_k_run (p : ascii -> bool) (xs s : string)
    (k : string -> option string) (r : string) :
  PyStr.all_char p xs = true -> Re.stops p s = true -> k s = Some r ->
  Re.star_k p (xs ++ s) k = Some r.
Proof.
  intros Hall Hstop Hk. induction xs as [|x xs IH].
  - cbn [append]. now rewrite star_k_stop.
  - cbn [PyStr.all_char] in Hall. apply andb_true_iff in Hall as [Hx Hall].
    cbn [append Re.star_k]. now rewrite Hx, (IH Hall).
Qed.

Lemma space_not_rparen (c : ascii) (s : string) :
  PyStr.is_space c = true -> String.prefix ")" (String c s) = false.
Proof.
  intros H. cbn [String.prefix].
  destruct (ascii_dec ")" c) as [<-|_]; [discriminate | reflexivity].
Qed.

(** White space that is not followed by the closing parenthesis: the end of
    the pattern fails after every part of the run. *)
Lemma star_k_space_fails (ws t : string) (k : string -> option string) :
  PyStr.all_char PyStr.is_space ws = true ->
  Re.stops PyStr.is_space t = true ->
  String.prefix ")" t = false ->
  Re.star_k PyStr.is_space (ws ++ t)
    (fun s' => if String.prefix ")" s' then k s' else None) = None.
Proof.
  intros Hall Hstop Ht. induction ws as [|w ws IH].
  - cbn [append]. rewrite star_k_stop by assumption. now rewrite Ht.
  - cbn [PyStr.all_char] in Hall. apply andb_true_iff in Hall as [Hw Hall].
    cbn [append Re.star_k]. rewrite Hw, (IH Hall).
    now rewrite space_not_rparen.
Qed.

Lemma space_is_not_rparen (c : ascii) :
  PyStr.is_space c = true -> not_rparen c = true.
Proof.
  unfold not_rparen. destruct (Ascii.eqb_spec c ")") as [->|_];
    [discriminate | reflexivity].
Qed.

(** White space and then anything but a closing parenthesis: together the
    two stars run up to the first closing parenthesis. *)
Lemma star_k_args (args rest : string) (k : string -> option string) (r : string) :
  PyStr.all_char not_rparen args = true ->
  k (")" ++ rest) = Some r ->
  Re.star_k PyStr.is_space (args ++ ")" ++ rest)
    (fun s' => Re.star_k not_rparen s' k) = Some r.
Proof.
  intros Hall Hk. induction args as [|a args IH].
  - cbn [append]. rewrite star_k_stop by reflexivity.
    rewrite star_k_stop by reflexivity. exact Hk.
  - pose proof Hall as Hall'.
    cbn [PyStr.all_char] in Hall. apply andb_true_iff in Hall as [Ha Hall].
    change (String a args ++ ")" ++ rest) with (String a (args ++ ")" ++ rest)).
    rewrite star_k_cons. destruct (PyStr.is_space a).
    + now rewrite (IH Hall).
    + change (String a (args ++ ")" ++ rest)) with (String a args ++ ")" ++ rest).
      now apply star_k_run.
Qed.

Lemma sub_go_skip (r : Re.regex) (repl a s : string) :
  Re.sub_go r repl (String.length a) (a ++ s) = Re.sub_go r repl 0 s.
Proof.
  induction a as [|c a IH]; [reflexivity|].
  cbn [append String.length Re.sub_go]. exact IH.
Qed.

(** A match that is found is replaced, and the scan goes on behind it. *)
Lemma sub_go_match (r : Re.regex) (repl m rest : string) :
  m <> "" -> Re.match_at r (m ++ rest) = Some rest ->
  Re.sub_go r repl 0 (m ++ rest) = repl ++ Re.sub_go r repl 0 rest.
Proof.
  intros Hm Hmatch. destruct m as [|c m]; [now elim Hm|].
  change (String c m ++ rest) with (String c (m ++ rest)) in *.
  cbn [Re.sub_go]. rewrite Hmatch.
  replace (String.length (String c (m ++ rest)) - String.length rest)
    with (S (String.length m))
    by (cbn [String.length]; rewrite length_append; lia).
  now rewrite sub_go_skip.
Qed.

Lemma sub_go_no_match (r : Re.regex) (repl : string) (c : ascii) (s : string) :
  Re.match_at r (String c s) = None ->
  Re.sub_go r repl 0 (String c s) = String c (Re.sub_go r repl 0 s).
Proof. intros H. cbn [Re.sub_go]. now rewrite H. Qed.

Lemma prefix_extend (p a b : string) :
  String.length p <= String.length a ->
  String.prefix p (a ++ b) = String.prefix p a.
Proof.
  revert a; induction p as [|x p IH]; intros a Hlen.
  - now rewrite !prefix_nil.
  - destruct a as [|y a]; [cbn in Hlen; lia|].
    cbn [append String.prefix]. destruct (ascii_dec x y); [|reflexivity].
    apply IH. cbn [String.length] in Hlen. lia.
Qed.

(** The pattern starts with literal text: where that text does not start,
    there is no match. *)
Lemma pattern_needs_literal (s : string) :
  String.prefix "pd.read_csv" s = false ->
  Re.match_at pd_read_csv_pattern s = None.
Proof.
  intros H. unfold Re.match_at, pd_read_csv_pattern. cbn [Re.match_k].
  now rewrite H.
Qed.

(** Text in which the literal does not start is copied as it is. *)
Lemma sub_before_call (repl pre tail : string) :
  PyStr.contains "pd.read_csv" (pre ++ "pd.read_cs") = false ->
  Re.sub pd_read_csv_pattern repl (pre ++ "pd.read_cs" ++ tail)
  = pre ++ Re.sub pd_read_csv_pattern repl ("pd.read_cs" ++ tail).
Proof.
  unfold Re.sub. induction pre as [|x pre IH]; intros H; [reflexivity|].
  change (String x pre ++ "pd.read_cs") with (String x (pre ++ "pd.read_cs")) in H.
  cbn [PyStr.contains] in H. apply orb_false_iff in H as [Hp Hc].
  change (String x pre ++ "pd.read_cs" ++ tail)
    with (String x (pre ++ "pd.read_cs" ++ tail)).
  rewrite sub_go_no_match.
  - cbn [append]. f_equal. exact (IH Hc).
  - apply pattern_needs_literal.
    change (String x (pre ++ "pd.read_cs" ++ tail))
      with (String x pre ++ "pd.read_cs" ++ tail).
    rewrite <- append_assoc, prefix_extend; [exact Hp|].
    rewrite length_append. cbn [String.length]. lia.
Qed.

End ReFacts.

(** A call of [pd.read_csv] on a quoted name, with optional white space
    around the parenthesis and the name. *)
Section CallFacts.

Variables (ws1 ws2 ws3 name : string) (q1 q2 : ascii).
Hypothesis Hws1 : PyStr.all_char PyStr.is_space ws1 = true.
Hypothesis Hws2 : PyStr.all_char PyStr.is_space ws2 = true.
Hypothesis Hws3 : PyStr.all_char PyStr.is_space ws3 = true.
Hypothesis Hq1 : is_quote q1 = true.
Hypothesis Hq2 : is_quote q2 = true.
Hypothesis Hname : PyStr.all_char not_quote name = true.

Lemma quote_stops_space (q : ascii) (s : string) :
  is_quote q = true -> Re.stops PyStr.is_space (String q s) = true.
Proof.
  unfold is_quote. cbn [Re.stops]. intros H.
  apply orb_true_iff in H as [H|H]; apply Ascii.eqb_eq in H; now subst.
Qed.

Lemma quote_stops_name (q : ascii) (s : string) :
  is_quote q = true -> Re.stops not_quote (String q s) = true.
Proof. unfold not_quote. cbn [Re.stops]. now intros ->. Qed.

Lemma closing_matches (rest : string) :
  Re.star_k PyStr.is_space (ws3 ++ ")" ++ rest)
    (fun s' => if String.prefix ")" s'
               then Some (PyStr.drop (String.length ")") s') else None)
  = Some rest.
Proof.
  apply star_k_run; [exact Hws3 | reflexivity |].
  now rewrite prefix_append, drop_append.
Qed.

(** The pattern up to the closing quote of the name: the literal, the
    parenthesis, the quotes and the three runs in between. *)
Ltac match_up_to_name :=
  unfold Re.match_at, pd_read_csv_pattern; cbn [Re.match_k];
  rewrite prefix_append, drop_append;
  apply star_k_run; [exact Hws1 | reflexivity |];
  rewrite prefix_append, drop_append;
  apply star_k_run; [exact Hws2 | now apply quote_stops_space |];
  rewrite Hq1;
  apply star_k_run; [exact Hname | now apply quote_stops_name |];
  rewrite Hq2.

(** A call with a quoted name and nothing else. *)
Lemma match_plain_call (rest : string) :
  Re.match_at pd_read_csv_pattern
    ("pd.read_csv" ++ ws1 ++ "(" ++ ws2
     ++ String q1 (name ++ String q2 (ws3 ++ ")" ++ rest)))
  = Some rest.
Proof.
  match_up_to_name.
  now rewrite closing_matches.
Qed.

(** A call with a quoted name and further arguments, up to the first closing
    parenthesis. *)
Lemma match_call_with_args (args rest : string) :
  PyStr.all_char not_rparen args = true ->
  Re.match_at pd_read_csv_pattern
    ("pd.read_csv" ++ ws1 ++ "(" ++ ws2
     ++ String q1 (name ++ String q2 (ws3 ++ "," ++ args ++ ")" ++ rest)))
  = Some rest.
Proof.
  intros Hargs.
  match_up_to_name.
  rewrite (star_k_space_fails ws3 ("," ++ args ++ ")" ++ rest)) by
    first [exact Hws3 | reflexivity].
  apply star_k_run; [exact Hws3 | reflexivity |].
  rewrite prefix_append, drop_append.
  apply star_k_args; [exact Hargs|].
  rewrite star_k_stop by reflexivity.
  now rewrite prefix_append, drop_append.
Qed.

Lemma plain_call_assoc (rest : string) :
  "pd.read_csv" ++ ws1 ++ "(" ++ ws2
    ++ String q1 (name ++ String q2 (ws3 ++ ")" ++ rest))
  = ("pd.read_csv" ++ ws1 ++ "(" ++ ws2
       ++ String q1 (name ++ String q2 (ws3 ++ ")"))) ++ rest.
Proof.
  change (String q1 (name ++ String q2 (ws3 ++ ")" ++ rest)))
    with (String q1 "" ++ name ++ String q2 "" ++ ws3 ++ ")" ++ rest).
  change (String q1 (name ++ String q2 (ws3 ++ ")")))
    with (String q1 "" ++ name ++ String q2 "" ++ ws3 ++ ")").
  now rewrite !append_assoc.
Qed.

Lemma sub_plain_call (pre rest : string) :
  PyStr.contains "pd.read_csv" (pre ++ "pd.read_cs") = false ->
  Re.sub pd_read_csv_pattern csv_replacement
    (pre ++ "pd.read_csv" ++ ws1 ++ "(" ++ ws2
     ++ String q1 (name ++ String q2 (ws3 ++ ")" ++ rest)))
  = pre ++ csv_replacement
    ++ Re.sub pd_read_csv_pattern csv_replacement rest.
Proof.
  intros Hpre.
  set (tail := ws1 ++ "(" ++ ws2 ++ String q1 (name ++ String q2 (ws3 ++ ")" ++ rest))).
  change ("pd.read_csv" ++ tail) with ("pd.read_cs" ++ "v" ++ tail).
  rewrite sub_before_call by exact Hpre. f_equal.
  change ("pd.read_cs" ++ "v" ++ tail) with ("pd.read_csv" ++ tail).
  subst tail. unfold Re.sub.
  pose proof (match_plain_call rest) as Hm.
  rewrite plain_call_assoc in *.
  apply sub_go_match; [discriminate | exact Hm].
Qed.


Lemma call_with_args_assoc (args rest : string) :
  "pd.read_csv" ++ ws1 ++ "(" ++ ws2
    ++ String q1 (name ++ String q2 (ws3 ++ "," ++ args ++ ")" ++ rest))
  = ("pd.read_csv" ++ ws1 ++ "(" ++ ws2
       ++ String q1 (name ++ String q2 (ws3 ++ "," ++ args ++ ")"))) ++ rest.
Proof.
  change (String q1 (name ++ String q2 (ws3 ++ "," ++ args ++ ")" ++ rest)))
    with (String q1 "" ++ name ++ String q2 "" ++ ws3 ++ "," ++ args ++ ")" ++ rest).
  change (String q1 (name ++ String q2 (ws3 ++ "," ++ args ++ ")")))
    with (String q1 "" ++ name ++ String q2 "" ++ ws3 ++ "," ++ args ++ ")").
  now rewrite !append_assoc.
Qed.

Lemma sub_call_with_args (pre args rest : string) :
  PyStr.all_char not_rparen args = true ->
  PyStr.contains "pd.read_csv" (pre ++ "pd.read_cs") = false ->
  Re.sub pd_read_csv_pattern csv_replacement
    (pre ++ "pd.read_csv" ++ ws1 ++ "(" ++ ws2
     ++ String q1 (name ++ String q2 (ws3 ++ "," ++ args ++ ")" ++ rest)))
  = pre ++ csv_replacement
    ++ Re.sub pd_read_csv_pattern csv_replacement rest.
Proof.
  intros Hargs Hpre.
  set (tail := ws1 ++ "(" ++ ws2
               ++ String q1 (name ++ String q2 (ws3 ++ "," ++ args ++ ")" ++ rest))).
  change ("pd.read_csv" ++ tail) with ("pd.read_cs" ++ "v" ++ tail).
  rewrite sub_before_call by exact Hpre. f_equal.
  change ("pd.read_cs" ++ "v" ++ tail) with ("pd.read_csv" ++ tail).
  subst tail. unfold Re.sub.
  pose proof (match_call_with_args args rest Hargs) as Hm.
  rewrite call_with_args_assoc in *.
  apply sub_go_match; [discriminate | exact Hm].
Qed.

End CallFacts.

(** The in-memory form is no match. *)
Lemma in_memory_form_kept (rest : string) :
  Re.match_at pd_read_csv_pattern (csv_replacement ++ rest) = None.
Proof. reflexivity. Qed.

Lemma in_memory_form_sub (rest : string) :
  Re.sub pd_read_csv_pattern csv_replacement (csv_replacement ++ rest)
  = csv_replacement ++ Re.sub pd_read_csv_pattern csv_replacement rest.
Proof.
  unfold Re.sub, csv_replacement.
  cbn [append].
  repeat (rewrite sub_go_no_match by reflexivity).
  reflexivity.
Qed.


(** ** The place of the data literal *)

Section ScanFacts.

(** The scan from any start, in terms of the scan from zero. *)
Lemma scan_imports_shift (code_lines : list string) (i insert_index : nat) :
  scan_imports i insert_index code_lines
  = match scan_imports 0 0 code_lines with
    | O => insert_index
    | S m => i + S m
    end.
Proof.
  revert i insert_index.
  induction code_lines as [|line rest IH]; intros i insert_index; [reflexivity|].
  cbn [scan_imports].
  destruct (is_import_line (PyStr.strip line)).
  - rewrite (IH (S i) (S i)), (IH 1 1).
    destruct (scan_imports 0 0 rest); cbn; lia.
  - destruct (is_code_line (PyStr.strip line)); [reflexivity|].
    rewrite (IH (S i) insert_index), (IH 1 0).
    destruct (scan_imports 0 0 rest); cbn; lia.
Qed.

Lemma list_insert_at_split {A : Type} (n : nat) (x : A) (l : list A) :
  list_insert_at n x l = (List.firstn n l ++ x :: List.skipn n l)%list.
Proof.
  revert l; induction n as [|n IH]; intros [|y l]; cbn; try reflexivity.
  now rewrite IH.
Qed.

(** Where the scan stops: the lines before are imports, blanks and
    comments, the last of them an import; no import leads the lines after. *)
Lemma scan_imports_split (code_lines : list string) :
  let n := scan_imports 0 0 code_lines in
  Forall (fun line => is_leading_line line = true) (List.firstn n code_lines)
  /\ (n <> 0 ->
      is_import_line (PyStr.strip (List.last (List.firstn n code_lines) "")) = true)
  /\ scan_imports 0 0 (List.skipn n code_lines) = 0.
Proof.
  induction code_lines as [|line rest (IHall & IHlast & IHrest)]; cbn zeta.
  - now repeat split.
  - cbn [scan_imports].
    destruct (is_import_line (PyStr.strip line)) eqn:Ei.
    + rewrite (scan_imports_shift rest 1 1).
      assert (E : match scan_imports 0 0 rest with 0 => 1 | S m => 1 + S m end
                  = S (scan_imports 0 0 rest))
        by (destruct (scan_imports 0 0 rest); lia).
      rewrite E. cbn [List.firstn List.skipn]. split; [|split].
      * constructor; [unfold is_leading_line; now rewrite Ei | exact IHall].
      * intros _. destruct (scan_imports 0 0 rest) as [|m] eqn:En.
        -- cbn. exact Ei.
        -- assert (Hl := IHlast ltac:(discriminate)).
           destruct (List.firstn (S m) rest) as [|y ys] eqn:Ef;
             [destruct rest; discriminate|].
           exact Hl.
      * exact IHrest.
    + destruct (is_code_line (PyStr.strip line)) eqn:Ec.
      * cbn [List.firstn List.skipn]. split; [constructor|].
        split; [intros H; now elim H|].
        cbn [scan_imports]. now rewrite Ei, Ec.
      * rewrite (scan_imports_shift rest 1 0).
        destruct (scan_imports 0 0 rest) as [|m] eqn:En.
        -- cbn [List.firstn List.skipn]. split; [constructor|].
           split; [intros H; now elim H|].
           cbn [scan_imports]. rewrite Ei, Ec.
           rewrite (scan_imports_shift rest 1 0), En. reflexivity.
        -- replace (1 + S m) with (S (S m)) by lia.
           cbn [List.firstn List.skipn]. split; [|split].
           ++ constructor; [unfold is_leading_line; now rewrite Ei, Ec | exact IHall].
           ++ intros _. assert (Hl := IHlast ltac:(discriminate)).
              destruct (List.firstn (S m) rest) as [|y ys] eqn:Ef;
                [destruct rest; discriminate|].
              exact Hl.
           ++ exact IHrest.
Qed.

End ScanFacts.

(** ** Data injection *)

Example csv_two_rows :
  let order := Csv.insertion_order in
  csv_text [ [("a", Some "1"); ("b", Some "x,y")]; [("b", Some "q"); ("a", None)] ]
  = inr ("a,b" ++ CRLF ++ "1," ++ DQ ++ "x,y" ++ DQ ++ CRLF ++ ",q" ++ CRLF).
Proof. intros order. reflexivity. Qed.

Example csv_lone_empty_field :
  let order := Csv.insertion_order in
  csv_text [ [("a", Some "")] ] = inr ("a" ++ CRLF ++ DQ ++ DQ ++ CRLF).
Proof. intros order. reflexivity. Qed.

Example csv_extra_key :
  let order := Csv.insertion_order in
  csv_text [ [("a", Some "1")]; [("a", Some "2"); ("b", Some "3")] ]
  = inl (ValueError ["b"]).
Proof. intros order. reflexivity. Qed.

Example sub_two_calls :
  Re.sub pd_read_csv_pattern csv_replacement
    ("a = pd.read_csv('a.csv'); b = pd.read_csv ( 'b.csv' , sep=';')")
  = "a = " ++ csv_replacement ++ "; b = " ++ csv_replacement.
Proof. reflexivity. Qed.

Example sub_nested_parenthesis :
  Re.sub pd_read_csv_pattern csv_replacement "pd.read_csv('a.csv', dtype=dict(a=int))"
  = csv_replacement ++ ")".
Proof. reflexivity. Qed.

Example inject_after_imports :
  inject_lines "T"
    ("import pandas as pd" ++ LF ++ "# note" ++ LF ++ "from x import y" ++ LF
     ++ "  import io" ++ LF ++ "df = pd.read_csv('a.csv')" ++ LF ++ "import z")
  = [ "import io"; "import pandas as pd"; "# note"; "from x import y";
      csv_literal "T"; "df = " ++ csv_replacement; "import z" ].
Proof. reflexivity. Qed.

(** C2, as the claim states it, fails in three ways: a cell that holds a
    line feed makes the text of one row three lines long; for an empty
    sequence of rows no call is replaced and no literal is inserted; and a
    call whose quoted name holds a call with the other quote character is
    still a call on a quoted name after the substitution. *)
Lemma csv_injection_counterexample :
  let order := Csv.insertion_order in
  (exists text,
      csv_text [ [("a", Some ("x" ++ LF ++ "y"))] ] = inr text
      /\ PyStr.count_char "010" text = 3)
  /\ (exists program,
        rewritten_program (Some "df = pd.read_csv('data.csv')") (Some []) None None
        = inr program
        /\ PyStr.contains "pd.read_csv('data.csv')" program = true
        /\ PyStr.contains "csv_data_string" program = false)
  /\ (exists program,
        Re.sub pd_read_csv_pattern csv_replacement
          ("pd.read_csv('pd.read_csv(" ++ DQ ++ "x" ++ DQ ++ ")')")
        = program
        /\ program = "pd.read_csv('" ++ csv_replacement ++ "')"
        /\ Re.match_at pd_read_csv_pattern program = Some "").
Proof.
  intros order.
  split; [|split].
  - eexists. split; [reflexivity | vm_compute; reflexivity].
  - eexists. split; [reflexivity | split; vm_compute; reflexivity].
  - eexists. split; [reflexivity | split; vm_compute; reflexivity].
Qed.

Lemma csv_text_lines {order : Csv.HashOrder} (first : Csv.row) (rest : list Csv.row) :
  uniform_keys first (first :: rest) ->
  clean_rows (first :: rest) ->
  exists text,
    csv_text (first :: rest) = inr text
    /\ String.prefix (Csv.writeheader (Csv.keys first)) text = true
    /\ PyStr.count_char "010" text = S (length (first :: rest))
    /\ PyStr.count_char "013" text = S (length (first :: rest)).
Proof.
  intros Hu Hc. unfold csv_text.
  destruct (dict_writerows_lines (Csv.keys first) (first :: rest))
    as (body & -> & Hlf & Hcr).
  - eapply List.Forall_impl; [|exact Hu]. intros r Hr k. apply Hr.
  - eapply List.Forall_impl; [|exact Hc]. intros r Hr.
    eapply List.Forall_impl; [|exact Hr]. now intros kv [_ H].
  - eexists. split; [reflexivity|]. split; [apply prefix_append|].
    rewrite !count_char_append, Hlf, Hcr. unfold Csv.writeheader.
    destruct (writerow_one_line (Csv.keys first)) as [-> ->]; [|split; reflexivity].
    apply List.Forall_cons_iff in Hc as [Hfirst _].
    unfold Csv.keys. apply List.Forall_map.
    eapply List.Forall_impl; [|exact Hfirst]. now intros kv [H _].
Qed.

Lemma scan_imports_import (line : string) (rest : list string) :
  is_import_line (PyStr.strip line) = true ->
  scan_imports 0 0 (line :: rest) = S (scan_imports 0 0 rest).
Proof.
  intros H. cbn [scan_imports]. rewrite H, scan_imports_shift.
  destruct (scan_imports 0 0 rest); reflexivity.
Qed.

Lemma inject_lines_place (text modified_code : string) :
  exists before after,
    inject_lines text modified_code = (before ++ csv_literal text :: after)%list
    /\ (before ++ after)%list
       = "import io"
         :: List.filter
              (fun line => negb (String.eqb (PyStr.strip line) "import io"))
              (PyStr.split "010"
                 (Re.sub pd_read_csv_pattern csv_replacement modified_code))
    /\ hd "" before = "import io"
    /\ is_import_line (PyStr.strip (List.last before "")) = true
    /\ Forall (fun line => is_leading_line line = true) before
    /\ scan_imports 0 0 after = 0.
Proof.
  unfold inject_lines.
  set (code_lines :=
         "import io"
         :: List.filter
              (fun line => negb (String.eqb (PyStr.strip line) "import io"))
              (PyStr.split "010"
                 (Re.sub pd_read_csv_pattern csv_replacement modified_code))).
  destruct (scan_imports_split code_lines) as (Hall & Hlast & Hafter).
  exists (List.firstn (scan_imports 0 0 code_lines) code_lines),
         (List.skipn (scan_imports 0 0 code_lines) code_lines).
  assert (Hm : scan_imports 0 0 code_lines
               = S (scan_imports 0 0 (List.tl code_lines)))
    by (apply scan_imports_import; reflexivity).
  split; [apply list_insert_at_split|].
  split; [apply List.firstn_skipn|].
  split; [rewrite Hm; reflexivity|].
  split; [apply Hlast; lia|].
  split; assumption.
Qed.

(** C2 (amended).  An empty sequence of rows is treated as no data: its CSV
    text is empty and the program is left as it is without data.  For
    [N > 0] rows with the keys of the first row and no carriage return or
    line feed in a column name or cell, the CSV text starts with the header
    made of the first row's keys and has exactly [N + 1] lines: it holds
    [N + 1] line feeds and [N + 1] carriage returns, those of the line
    terminators.  Whenever the rows have a CSV text, the
    rewritten program is the substituted program with [import io] put first,
    its other [import io] lines removed, and the literal assigned to
    [csv_data_string] placed right after the last leading import line.  In the
    substitution a call [pd.read_csv] on a quoted name, alone or followed by
    arguments free of a closing parenthesis, that stands where no earlier
    [pd.read_csv] starts is replaced by the in-memory form, and the in-memory
    form itself is never the start of a match. *)
Theorem csv_injection {order : Csv.HashOrder}
    (code : option string) (img chart : option string) :
  (csv_text [] = inr ""
   /\ rewritten_program code (Some []) img chart
      = rewritten_program code None img chart)
  /\ (forall (first : Csv.row) (rest : list Csv.row),
        uniform_keys first (first :: rest) ->
        clean_rows (first :: rest) ->
        exists text,
          csv_text (first :: rest) = inr text
          /\ String.prefix (Csv.writeheader (Csv.keys first)) text = true
          /\ PyStr.count_char "010" text = S (length (first :: rest))
          /\ PyStr.count_char "013" text = S (length (first :: rest)))
  /\ (forall (first : Csv.row) (rest : list Csv.row) (text : string),
        csv_text (first :: rest) = inr text ->
        exists before after,
          rewritten_program code (Some (first :: rest)) img chart
          = inr (PyStr.join LF (before ++ csv_literal text :: after)%list)
          /\ (before ++ after)%list
             = "import io"
               :: List.filter
                    (fun line => negb (String.eqb (PyStr.strip line) "import io"))
                    (PyStr.split "010"
                       (Re.sub pd_read_csv_pattern csv_replacement
                          (capture code (save_repl img chart))))
          /\ hd "" before = "import io"
          /\ is_import_line (PyStr.strip (List.last before "")) = true
          /\ Forall (fun line => is_leading_line line = true) before
          /\ scan_imports 0 0 after = 0)
  /\ (forall (pre ws1 ws2 ws3 name : string) (q1 q2 : ascii) (rest : string),
        PyStr.all_char PyStr.is_space ws1 = true ->
        PyStr.all_char PyStr.is_space ws2 = true ->
        PyStr.all_char PyStr.is_space ws3 = true ->
        is_quote q1 = true ->
        is_quote q2 = true ->
        PyStr.all_char not_quote name = true ->
        PyStr.contains "pd.read_csv" (pre ++ "pd.read_cs") = false ->
        Re.sub pd_read_csv_pattern csv_replacement
          (pre ++ "pd.read_csv" ++ ws1 ++ "(" ++ ws2
           ++ String q1 (name ++ String q2 (ws3 ++ ")" ++ rest)))
        = pre ++ csv_replacement
          ++ Re.sub pd_read_csv_pattern csv_replacement rest
        /\ forall args : string,
             PyStr.all_char not_rparen args = true ->
             Re.sub pd_read_csv_pattern csv_replacement
               (pre ++ "pd.read_csv" ++ ws1 ++ "(" ++ ws2
                ++ String q1 (name ++ String q2
                                (ws3 ++ "," ++ args ++ ")" ++ rest)))
             = pre ++ csv_replacement
               ++ Re.sub pd_read_csv_pattern csv_replacement rest)
  /\ (forall rest : string,
        Re.match_at pd_read_csv_pattern (csv_replacement ++ rest) = None).
Proof.
  split; [split; reflexivity|].
  split; [exact csv_text_lines|].
  split.
  - intros first rest text Htext.
    destruct (inject_lines_place text (capture code (save_repl img chart)))
      as (before & after & Hlines & Hrest).
    exists before, after. split; [|exact Hrest].
    unfold rewritten_program, inject_csv. now rewrite Htext, Hlines.
  - split; [|exact in_memory_form_kept].
    intros pre ws1 ws2 ws3 name q1 q2 rest H1 H2 H3 Hq1 Hq2 Hname Hpre. split.
    + now apply sub_plain_call.
    + intros args Hargs. now apply sub_call_with_args.
Qed.

(** C2 (amended) on two rows that list the same keys in different orders,
    and on a call with a keyword argument. *)
Lemma csv_injection_witness :
  let order := Csv.insertion_order in
  (exists text,
      csv_text [ [("a", Some "1"); ("b", Some "x,y")]; [("b", Some "q"); ("a", None)] ]
      = inr text
      /\ PyStr.count_char "010" text = 3)
  /\ Re.sub pd_read_csv_pattern csv_replacement
       ("df = " ++ "pd.read_csv" ++ "" ++ "(" ++ ""
        ++ String "'" ("data.csv" ++ String "'"
                         ("" ++ "," ++ " sep=';'" ++ ")" ++ LF ++ "plt.show()")))
     = "df = " ++ csv_replacement
       ++ Re.sub pd_read_csv_pattern csv_replacement (LF ++ "plt.show()").
Proof.
  intros order.
  destruct (csv_injection None None None) as (_ & Hlines & _ & Hcalls & _).
  split.
  - destruct (Hlines [("a", Some "1"); ("b", Some "x,y")]
                     [[("b", Some "q"); ("a", None)]])
      as (text & Htext & _ & Hlf & _).
    + unfold uniform_keys.
      repeat (apply List.Forall_cons; [intros k; cbn; tauto|]).
      apply List.Forall_nil.
    + unfold clean_rows, clean_cell.
      repeat first [apply List.Forall_nil | apply List.Forall_cons
                   | split; reflexivity].
    + exists text. split; assumption.
  - refine (proj2 (Hcalls "df = " "" "" "" "data.csv" "'"%char "'"%char
                     (LF ++ "plt.show()")
                     eq_refl eq_refl eq_refl eq_refl eq_refl eq_refl eq_refl)
              " sep=';'" eq_refl).
Defined.

(** ** The embedded path after the rewrite *)


Section SinkFacts.



End SinkFacts.



(** C10 (the code at the failing input).  An absent source is read as the
    empty program, so the rewritten program is the appended save sequence
    alone.  Its first statement calls [plt.gcf()], and the namespace handed
    to [exec] binds [img_buffer] and [__name__] only: the name [plt] is not
    bound when that statement runs. *)
Theorem absent_code_program {order : Csv.HashOrder} (img chart : option string) :
  rewritten_program None None img chart = rewritten_program (Some "") None img chart
  /\ (exists rest,
        rewritten_program None None img chart
        = inr (LF ++ LF ++ auto_save_comment ++ LF ++ "fig = plt.gcf()" ++ LF ++ rest))
  /\ exec_globals !! "plt" = None
  /\ dom exec_globals = {[ "img_buffer"; "__name__" ]}.
Proof.
  split; [reflexivity|]. split.
  - unfold rewritten_program, inject_csv, capture, save_repl.
    cbn [PyStr.contains String.prefix SHOW_SENTINEL orb].
    destruct (is_transparent_choice img);
      unfold save_repl_transparent, save_repl_opaque;
      eexists; cbn [append]; reflexivity.
  - split.
    + unfold exec_globals. now rewrite !lookup_insert_ne, lookup_empty.
    + unfold exec_globals. rewrite !dom_insert_L, dom_empty_L. set_solver.
Qed.

(** ** The external path *)

Section ExternalFacts.

Lemma append_nonempty_r (a b : string) : b <> "" -> a ++ b <> "".
Proof. destruct a; cbn; [auto | discriminate]. Qed.

Lemma os_path_join_nonempty (a b : string) : b <> "" -> os_path_join a b <> "".
Proof.
  intros Hb. unfold os_path_join.
  destruct (PyStr.startswith "/" b); [exact Hb|].
  destruct (negb (PyStr.truthy a) || endswith_char "/" a).
  - now apply append_nonempty_r.
  - apply append_nonempty_r. discriminate.
Qed.

Lemma prefix_lower (p s : string) :
  String.prefix p s = true ->
  String.prefix (PyStr.lower p) (PyStr.lower s) = true.
Proof.
  revert s; induction p as [|a p IH]; intros s H.
  - apply prefix_nil.
  - destruct s as [|b s]; [discriminate|].
    cbn [String.prefix] in H. destruct (ascii_dec a b) as [->|]; [|discriminate].
    cbn [PyStr.lower String.prefix].
    destruct (ascii_dec (PyStr.lower_char b) (PyStr.lower_char b)) as [_|ne];
      [now apply IH | now elim ne].
Qed.

Lemma contains_lower (sub s : string) :
  PyStr.contains sub s = true ->
  PyStr.contains (PyStr.lower sub) (PyStr.lower s) = true.
Proof.
  induction s as [|c s IH]; cbn [PyStr.contains PyStr.lower]; intros H.
  - apply orb_true_iff in H as [H|H]; [|discriminate].
    apply prefix_lower in H. cbn [PyStr.lower] in H. now rewrite H.
  - apply orb_true_iff in H as [H|H].
    + apply prefix_lower in H. cbn [PyStr.lower] in H. now rewrite H.
    + rewrite (IH H). apply orb_true_r.
Qed.

(** The test of line 272 is the case-blind search for [error] and nothing
    more: the conjunction in front of [or] never decides. *)
Lemma relevant_keyword_only (line : string) :
  relevant line = PyStr.contains "error" (PyStr.lower line).
Proof.
  unfold relevant.
  destruct (PyStr.contains "error" (PyStr.lower line)) eqn:E;
    [apply orb_true_r|].
  rewrite orb_false_r.
  destruct (PyStr.contains "Error" line) eqn:E'; [|apply andb_false_r].
  apply contains_lower in E'. cbn [PyStr.lower] in E'.
  change (PyStr.contains "error" (PyStr.lower line) = true) in E'. congruence.
Qed.

Lemma filter_relevant_none (lines : list string) :
  Forall (fun line => PyStr.contains "error" (PyStr.lower line) = false) lines ->
  List.filter relevant lines = [].
Proof.
  induction 1 as [|l ls Hl _ IH]; [reflexivity|].
  cbn [List.filter]. rewrite relevant_keyword_only, Hl. exact IH.
Qed.

Lemma split_cons (sep : ascii) (s : string) :
  exists l ls, PyStr.split sep s = l :: ls.
Proof.
  induction s as [|c s (l & ls & IH)]; cbn [PyStr.split]; [eauto|].
  destruct (Ascii.eqb c sep); [eauto|]. rewrite IH. eauto.
Qed.

Lemma length_take (n : nat) (s : string) :
  String.length (PyStr.take n s) = Nat.min n (String.length s).
Proof.
  revert s; induction n as [|n IH]; intros [|c s]; cbn; auto.
Qed.

(** X8.  With no line that holds the keyword, the message is the first line of
    the stripped stream, stripped and cut to 200 characters. *)
Lemma select_error_fallback (stderr : string) :
  PyStr.strip stderr <> "" ->
  Forall (fun line => PyStr.contains "error" (PyStr.lower line) = false)
         (PyStr.split "010" (PyStr.strip stderr)) ->
  select_error stderr
  = PyStr.take 200 (PyStr.strip (hd "" (PyStr.split "010" (PyStr.strip stderr))))
  /\ String.length (select_error stderr) <= 200.
Proof.
  intros Hne Hall. unfold select_error.
  destruct (PyStr.strip stderr) as [|c s] eqn:E; [now elim Hne|].
  cbn [PyStr.truthy].
  rewrite (filter_relevant_none _ Hall).
  destruct (split_cons "010" (String c s)) as (l & ls & ->). cbn [hd].
  split; [reflexivity | rewrite length_take; lia].
Qed.

(** A message longer than 300 characters is cut to 300 and marked. *)
Lemma cap_error_long (clean_error : string) :
  300 < String.length clean_error ->
  cap_error clean_error = PyStr.take 300 clean_error ++ "..."
  /\ String.length (cap_error clean_error) = 303.
Proof.
  intros H. unfold cap_error.
  destruct (Nat.ltb_spec 300 (String.length clean_error)) as [_|]; [|lia].
  split; [reflexivity|].
  rewrite length_append, length_take. cbn [String.length]. lia.
Qed.

Lemma cap_error_short (clean_error : string) :
  String.length clean_error <= 300 -> cap_error clean_error = clean_error.
Proof.
  intros H. unfold cap_error.
  destruct (Nat.ltb_spec 300 (String.length clean_error)); [lia | reflexivity].
Qed.

Lemma r_error_msg_note (stderr : string) :
  exists pre post : string,
    r_error_msg stderr false = pre ++ no_image_note ++ post.
Proof.
  unfold r_error_msg, add_guidance, add_note.
  set (e := cap_error (select_error stderr)).
  exists ("R execution error: " ++ e).
  destruct (_ && _).
  - exists ggplot2_guidance. now rewrite !append_assoc.
  - exists "". now rewrite !append_assoc, append_nil_r.
Qed.

Lemma r_finish_success (returncode : Z) (stderr : string)
    (out_file : option (list Byte.byte)) (image : list Byte.byte) :
  r_finish returncode stderr out_file = inr image
  <-> returncode = 0%Z /\ out_file = Some image.
Proof.
  unfold r_finish.
  destruct (Z.eqb_spec returncode 0) as [->|Hrc], out_file as [bytes|];
    cbn; split; intros H; try discriminate.
  - split; [reflexivity | congruence].
  - destruct H as [_ H]. congruence.
  - now destruct H.
  - now destruct H.
  - now destruct H.
Qed.

Lemma r_finish_failure (returncode : Z) (stderr : string)
    (out_file : option (list Byte.byte)) :
  returncode <> 0%Z \/ out_file = None ->
  r_finish returncode stderr out_file
  = inl (RuntimeError (r_error_msg stderr (path_exists out_file))).
Proof.
  unfold r_finish.
  destruct (Z.eqb_spec returncode 0) as [->|Hrc], out_file as [bytes|];
    cbn; intros [H|H]; congruence.
Qed.

End ExternalFacts.

Example select_keyword_line :
  select_error ("Loading required package: x" ++ LF
                ++ "  Error in library(foo) : nope  " ++ LF ++ "Execution halted")
  = "Error in library(foo) : nope".
Proof. reflexivity. Qed.

Example select_first_line :
  select_error (LF ++ "  " ++ LF ++ "  Warning message: z " ++ LF ++ "Execution halted")
  = "Warning message: z".
Proof. reflexivity. Qed.

Example select_empty_stream : select_error ("  " ++ LF) = "R script execution failed".
Proof. reflexivity. Qed.

(** C3 (the code at the failing input).  The test of line 272 keeps every
    line that holds [error] in any case, whatever its start; so a line that
    starts with the halt banner and holds the keyword is taken as the
    message, although a later line holds the keyword and is no banner line. *)
Theorem halt_banner_line_selected :
  (forall line, relevant line = PyStr.contains "error" (PyStr.lower line))
  /\ PyStr.startswith "Execution halted" "Execution halted: fatal error" = true
  /\ relevant "Execution halted: fatal error" = true
  /\ select_error ("Execution halted: fatal error" ++ LF
                   ++ "Error in plot(x) : object 'x' not found")
     = "Execution halted: fatal error"
  /\ r_error_msg ("Execution halted: fatal error" ++ LF
                  ++ "Error in plot(x) : object 'x' not found") true
     = "R execution error: Execution halted: fatal error".
Proof.
  split; [exact relevant_keyword_only|].
  repeat split; vm_compute; reflexivity.
Qed.

(** C4.  When the renderer has run to its end, the external path returns an
    image exactly when the exit code is zero and the output file exists, and
    the image is the content of that file; in every other case it raises a
    [RuntimeError], and when the file is missing the message of that error
    holds the note [(no output image generated)]. *)
Theorem external_success_iff {order : Csv.HashOrder}
    (module_dir temp_dir : string)
    (subprocess_run :
       list (string * string) -> run_call -> proc_outcome * option (list Byte.byte))
    (code : string) (csv_data : option (list Csv.row))
    (img chart : option string) (grid : option bool)
    (files : list (string * string))
    (returncode : Z) (stdout stderr : string) (out_file : option (list Byte.byte)) :
  r_files temp_dir code csv_data = inr files ->
  subprocess_run files (r_run_call module_dir temp_dir csv_data img chart grid)
  = (Completed returncode stdout stderr, out_file) ->
  (forall image,
     execute_r_code module_dir temp_dir subprocess_run (Some code) csv_data img chart grid
     = inr image
     <-> returncode = 0%Z /\ out_file = Some image)
  /\ (returncode <> 0%Z \/ out_file = None ->
      exists msg,
        execute_r_code module_dir temp_dir subprocess_run (Some code) csv_data img chart grid
        = inl (RuntimeError msg))
  /\ (out_file = None ->
      exists pre post,
        execute_r_code module_dir temp_dir subprocess_run (Some code) csv_data img chart grid
        = inl (RuntimeError (pre ++ no_image_note ++ post))).
Proof.
  intros Hfiles Hrun. unfold execute_r_code. rewrite Hfiles, Hrun.
  split; [|split].
  - intros image. apply r_finish_success.
  - intros H. rewrite (r_finish_failure _ _ _ H). eauto.
  - intros ->. rewrite r_finish_failure by now right.
    cbn [path_exists].
    destruct (r_error_msg_note stderr) as (pre & post & ->). eauto.
Qed.

(** C4 on a renderer that exits with code zero and writes no file. *)
Lemma external_success_iff_witness :
  let order := Csv.insertion_order in
  exists pre post,
    execute_r_code "/app" "/tmp/t0"
      (fun _ _ => (Completed 0 "" "Warning: nothing drawn", None))
      (Some "plot(1)") None None None None
    = inl (RuntimeError (pre ++ no_image_note ++ post)).
Proof.
  intros order.
  apply (proj2 (proj2 (external_success_iff "/app" "/tmp/t0"
           (fun _ _ => (Completed 0 "" "Warning: nothing drawn", None))
           "plot(1)" None None None None
           [("/tmp/t0/user_script.R", "plot(1)")]
           0 "" "Warning: nothing drawn" None eq_refl eq_refl))).
  reflexivity.
Defined.

(** C9.  For a request with a source text whose files could be written, the
    external path hands one call to the renderer and its result is what
    comes of that call.  The command of the call is the executable, the
    clean-environment flag, the runner script, the source file and the
    output file, followed in this order by the data file when rows were
    supplied, the figure choice and the panel choice when they are non-empty
    text, and [true] or [false] when the grid flag is specified; no argument
    is the empty text.  The call carries a timeout of 90 seconds and the
    temporary directory as its working directory.  A call that runs out of
    time makes the path raise, as does one that cannot start; one that runs
    to its end is answered by the exit code, the diagnostic stream and the
    output file. *)
Theorem renderer_command {order : Csv.HashOrder}
    (module_dir temp_dir : string)
    (subprocess_run :
       list (string * string) -> run_call -> proc_outcome * option (list Byte.byte))
    (code : string) (csv_data : option (list Csv.row))
    (img chart : option string) (grid : option bool)
    (files : list (string * string)) :
  r_files temp_dir code csv_data = inr files ->
  let command :=
    ([ "Rscript"; "--vanilla";
       os_path_join module_dir "run_r_script.r";
       os_path_join temp_dir "user_script.R";
       os_path_join temp_dir "chart.png" ]
     ++ match csv_data with
        | Some (_ :: _) => [os_path_join temp_dir "data.csv"]
        | _ => []
        end
     ++ match img with
        | Some (String a s) => [String a s]
        | _ => []
        end
     ++ match chart with
        | Some (String a s) => [String a s]
        | _ => []
        end
     ++ match grid with
        | Some true => ["true"]
        | Some false => ["false"]
        | None => []
        end)%list in
  let call := {| args := command; timeout := 90; cwd := temp_dir |} in
  Forall (fun a => a <> "") command
  /\ execute_r_code module_dir temp_dir subprocess_run (Some code) csv_data
       img chart grid
     = match subprocess_run files call with
       | (Completed returncode _ stderr, out_file) =>
           r_finish returncode stderr out_file
       | (Expired msg, _) => inl (Raised msg)
       | (SpawnFailed msg, _) => inl (Raised msg)
       end.
Proof.
  intros Hfiles command call.
  assert (Heq : r_command module_dir temp_dir csv_data img chart grid = command).
  { unfold command.
    destruct csv_data as [[|r rs]|], img as [[|a s]|], chart as [[|b t]|],
      grid as [[|]|]; reflexivity. }
  split.
  - unfold command.
    destruct csv_data as [[|r rs]|], img as [[|a s]|], chart as [[|b t]|],
      grid as [[|]|]; cbn [app];
      repeat (apply Forall_cons; split;
              [first [discriminate | apply os_path_join_nonempty; discriminate]|]);
      apply Forall_nil; exact I.
  - unfold execute_r_code. rewrite Hfiles. unfold r_run_call. rewrite Heq.
    reflexivity.
Qed.

(** C9 on a renderer that runs out of time and reports the call it was
    handed. *)
Lemma renderer_command_witness :
  let order := Csv.insertion_order in
  let subprocess_run :=
    fun (_ : list (string * string)) (call : run_call) =>
      (Expired
         (PyStr.join " " (args call)
          ++ (if (timeout call =? 90)%Z then " timed out after 90 seconds"
              else " timed out")
          ++ " in " ++ cwd call),
       @None (list Byte.byte)) in
  execute_r_code "/app" "/tmp/t0" subprocess_run (Some "plot(1)") None
    (Some "white") (Some "") (Some false)
  = inl (Raised
           ("Rscript --vanilla /app/run_r_script.r /tmp/t0/user_script.R "
            ++ "/tmp/t0/chart.png white false timed out after 90 seconds"
            ++ " in /tmp/t0")).
Proof.
  intros order subprocess_run.
  exact (proj2 (renderer_command "/app" "/tmp/t0" subprocess_run "plot(1)" None
                  (Some "white") (Some "") (Some false)
                  [("/tmp/t0/user_script.R", "plot(1)")] eq_refl)).
Defined.

(** ** The request handler *)

(** C8.  A request whose language tag is neither [python] nor [r] is
    answered with the invalid-language error and status 400, and no
    execution adapter is called. *)
Theorem invalid_language_rejected
    (adapters : adapter_call -> outcome (list Byte.byte)) (req : ChartRequest) :
  language req <> Some "python" ->
  language req <> Some "r" ->
  generate_chart req = Answer (JsonError "Invalid language specified" 400)
  /\ run_handler adapters (generate_chart req)
     = (JsonError "Invalid language specified" 400, []).
Proof.
  intros Hp Hr. unfold generate_chart.
  destruct (language req) as [lang|]; [|split; reflexivity].
  destruct (String.eqb_spec lang "python") as [->|_]; [now elim Hp|].
  destruct (String.eqb_spec lang "r") as [->|_]; [now elim Hr|].
  split; reflexivity.
Qed.

(** C8 on a request for another language. *)
Lemma invalid_language_rejected_witness :
  run_handler (fun _ => inr [])
    (generate_chart
       {| language := Some "julia"; code := Some "plot(1)"; data := None;
          imgBgChoice := None; bgChoice := None; chartBgChoice := None;
          showGridLines := None |})
  = (JsonError "Invalid language specified" 400, []).
Proof.
  refine (proj2 (invalid_language_rejected (fun _ => inr [])
            {| language := Some "julia"; code := Some "plot(1)"; data := None;
               imgBgChoice := None; bgChoice := None; chartBgChoice := None;
               showGridLines := None |} _ _)); discriminate.
Defined.

(** A request for one of the two languages calls its adapter once and turns
    the adapter's result into the answer; an exception outside [Exception]
    that the embedded path lets through leaves the handler. *)
Lemma supported_language_dispatched {order : Csv.HashOrder}
    (exec : string -> gmap string pyobj -> exec_outcome)
    (text_figure_chunks : string -> list Byte.byte)
    (module_dir temp_dir : string)
    (subprocess_run :
       list (string * string) -> run_call -> proc_outcome * option (list Byte.byte))
    (req : ChartRequest) :
  let adapters := dispatch exec text_figure_chunks module_dir temp_dir subprocess_run in
  let img := py_or (imgBgChoice req) (bgChoice req) in
  (language req = Some "python" ->
   run_handler adapters (generate_chart req)
   = (match execute_python_code exec text_figure_chunks (code req) (data req) img
              (chartBgChoice req) with
      | inr image => SendFile image "image/png"
      | inl (Exception e) => JsonError (str_exn e) 500
      | inl (BaseException cls text) => Unhandled cls text
      end,
      [CallPython (code req) (data req) img (chartBgChoice req)]))
  /\ (language req = Some "r" ->
      run_handler adapters (generate_chart req)
      = (match execute_r_code module_dir temp_dir subprocess_run (code req) (data req)
                 img (chartBgChoice req) (showGridLines req) with
         | inr image => SendFile image "image/png"
         | inl e => JsonError (str_exn e) 500
         end,
         [CallR (code req) (data req) img (chartBgChoice req) (showGridLines req)])).
Proof.
  cbn zeta. unfold generate_chart. split; intros ->; cbn [String.eqb Ascii.eqb Bool.eqb];
    cbn [run_handler dispatch].
  - destruct (execute_python_code _ _ _ _ _ _) as [[e|cls text]|image]; reflexivity.
  - destruct (execute_r_code _ _ _ _ _ _ _ _) as [e|image]; reflexivity.
Qed.

Example python_request_dispatched :
  generate_chart
    {| language := Some "python"; code := Some "plt.show()"; data := None;
       imgBgChoice := Some ""; bgChoice := Some "white"; chartBgChoice := None;
       showGridLines := None |}
  = Invoke (CallPython (Some "plt.show()") None (Some "white") None) respond.
Proof. reflexivity. Qed.

(** * Further properties of the pipeline *)

(** ** Substitutions leave other text alone *)

Section FrameFacts.

Lemma contains_false_suffix (sub u t : string) :
  PyStr.contains sub (u ++ t) = false -> String.prefix sub t = false.
Proof.
  induction u as [|c u IH]; intros H.
  - change ("" ++ t) with t in H. destruct t as [|d t];
      cbn [PyStr.contains] in H; now apply orb_false_iff in H as [H _].
  - change (String c u ++ t) with (String c (u ++ t)) in H.
    cbn [PyStr.contains] in H. apply orb_false_iff in H as [_ H]. exact (IH H).
Qed.

(** Where no suffix of the text is matched, the text is kept. *)
Lemma sub_keeps (r : Re.regex) (repl s : string) :
  (forall u t, s = u ++ t -> Re.match_at r t = None) ->
  Re.sub r repl s = s.
Proof.
  unfold Re.sub. induction s as [|c s IH]; intros H.
  - cbn [Re.sub_go]. now rewrite (H "" "" eq_refl).
  - rewrite sub_go_no_match by exact (H "" (String c s) eq_refl).
    f_equal. apply IH. intros u t ->. exact (H (String c u) t eq_refl).
Qed.

Lemma lower_append (a b : string) :
  PyStr.lower (a ++ b) = PyStr.lower a ++ PyStr.lower b.
Proof.
  induction a as [|c a IH]; [reflexivity|].
  cbn [append PyStr.lower]. now rewrite IH.
Qed.

Lemma prefix_nocase_lower (p s : string) :
  Re.prefix_nocase p s = String.prefix (PyStr.lower p) (PyStr.lower s).
Proof.
  revert s; induction p as [|a p IH]; intros s.
  - cbn. now destruct (PyStr.lower s).
  - destruct s as [|b s]; [reflexivity|].
    cbn [Re.prefix_nocase PyStr.lower String.prefix].
    destruct (Ascii.eqb_spec (PyStr.lower_char a) (PyStr.lower_char b)) as [E|E];
      destruct (ascii_dec (PyStr.lower_char a) (PyStr.lower_char b)) as [E'|E'];
      try contradiction; [apply IH | reflexivity].
Qed.

End FrameFacts.

(** X1.  Program text that does not hold [pd.read_csv] is left as it is by the
    substitution of the data-loading calls. *)
Theorem sub_without_read_csv (code : string) :
  PyStr.contains "pd.read_csv" code = false ->
  Re.sub pd_read_csv_pattern csv_replacement code = code.
Proof.
  intros H. apply sub_keeps. intros u t ->.
  apply pattern_needs_literal. exact (contains_false_suffix _ u t H).
Qed.

Lemma sub_without_read_csv_witness :
  Re.sub pd_read_csv_pattern csv_replacement
    ("df = pandas.read_csv('a.csv')" ++ LF ++ "plt.show()")
  = "df = pandas.read_csv('a.csv')" ++ LF ++ "plt.show()".
Proof.
  apply (sub_without_read_csv
           ("df = pandas.read_csv('a.csv')" ++ LF ++ "plt.show()")).
  reflexivity.
Defined.

(** X2.  An R script that nowhere holds [readr::], in any case of the letters,
    is written to disk unchanged. *)
Theorem strip_readr_without_namespace (src : string) :
  PyStr.contains "readr::" (PyStr.lower src) = false ->
  strip_readr_namespace src = src.
Proof.
  intros H. unfold strip_readr_namespace.
  assert (Hstep : forall func,
             Re.sub (Re.LitI "readr::" -+- Re.Star PyStr.is_space -+- Re.LitI func)
                    func src = src).
  { intros func. apply sub_keeps. intros u t ->.
    unfold Re.match_at. cbn [Re.match_k].
    rewrite prefix_nocase_lower. rewrite lower_append in H.
    change (PyStr.lower "readr::") with "readr::".
    now rewrite (contains_false_suffix _ _ _ H). }
  unfold readr_funcs. cbn [fold_left]. now rewrite !Hstep.
Qed.

Lemma strip_readr_without_namespace_witness :
  strip_readr_namespace "df <- read_csv('data.csv'); print(Readr)"
  = "df <- read_csv('data.csv'); print(Readr)".
Proof.
  apply (strip_readr_without_namespace "df <- read_csv('data.csv'); print(Readr)").
  reflexivity.
Defined.

(** ** Every display call is replaced *)

Section CaptureFacts.

Lemma contains_here (sub u t : string) : PyStr.contains sub (u ++ sub ++ t) = true.
Proof.
  induction u as [|c u IH].
  - change ("" ++ sub ++ t) with (sub ++ t).
    destruct (sub ++ t) eqn:E; cbn [PyStr.contains]; rewrite <- E;
      now rewrite prefix_append.
  - change (String c u ++ sub ++ t) with (String c (u ++ sub ++ t)).
    cbn [PyStr.contains]. rewrite IH. apply orb_true_r.
Qed.

Lemma replace_go_before (new pre tail : string) :
  PyStr.contains SHOW_SENTINEL (pre ++ "plt.show(") = false ->
  PyStr.replace_go SHOW_SENTINEL new 0 (pre ++ "plt.show(" ++ tail)
  = pre ++ PyStr.replace_go SHOW_SENTINEL new 0 ("plt.show(" ++ tail).
Proof.
  induction pre as [|x pre IH]; intros H; [reflexivity|].
  change (String x pre ++ "plt.show(") with (String x (pre ++ "plt.show(")) in H.
  cbn [PyStr.contains] in H. apply orb_false_iff in H as [Hp Hc].
  change (String x pre ++ "plt.show(" ++ tail)
    with (String x (pre ++ "plt.show(" ++ tail)).
  cbn [PyStr.replace_go].
  replace (String.prefix SHOW_SENTINEL (String x (pre ++ "plt.show(" ++ tail)))
    with false.
  - cbn [append]. f_equal. exact (IH Hc).
  - symmetry.
    change (String x (pre ++ "plt.show(" ++ tail))
      with (String x pre ++ "plt.show(" ++ tail).
    rewrite <- append_assoc, prefix_extend; [exact Hp|].
    rewrite length_append. cbn [String.length SHOW_SENTINEL]. lia.
Qed.

End CaptureFacts.

(** X3.  A display call before which no other one starts is replaced by the save
    sequence, the text before it is kept, and the replacement goes on in the
    text after it: with several display calls each one is replaced. *)
Theorem capture_each_display_call (pre rest save : string) :
  PyStr.contains SHOW_SENTINEL (pre ++ "plt.show(") = false ->
  capture (Some (pre ++ SHOW_SENTINEL ++ rest)) save
  = pre ++ save ++ PyStr.replace SHOW_SENTINEL save rest.
Proof.
  intros H. unfold capture. rewrite contains_here.
  change (PyStr.replace SHOW_SENTINEL save (pre ++ SHOW_SENTINEL ++ rest))
    with (PyStr.replace_go SHOW_SENTINEL save 0 (pre ++ "plt.show(" ++ ")" ++ rest)).
  rewrite replace_go_before by exact H. f_equal.
  change ("plt.show(" ++ ")" ++ rest) with (SHOW_SENTINEL ++ rest).
  apply replace_go_here. discriminate.
Qed.

Lemma capture_each_display_call_witness :
  capture (Some ("a()" ++ LF ++ "plt.show()" ++ LF ++ "b()" ++ LF ++ "plt.show()")) "SAVE"
  = "a()" ++ LF ++ "SAVE" ++ LF ++ "b()" ++ LF ++ "SAVE".
Proof.
  exact (capture_each_display_call ("a()" ++ LF) (LF ++ "b()" ++ LF ++ "plt.show()")
           "SAVE" eq_refl).
Defined.

(** ** Colours that stay unset *)

Section UnsetFacts.

Lemma image_lookup_none (key : string) :
  dict_get image_bg_table key (Some "#0a0a0a") = None <-> key = "transparent".
Proof.
  unfold image_bg_table. cbn [dict_get].
  repeat match goal with
         | |- context [String.eqb ?a key] => destruct (String.eqb_spec a key)
         end; split; intros H; subst; try discriminate; try reflexivity;
    congruence.
Qed.

Lemma chart_lookup_none (key : string) :
  dict_get chart_bg_table key (Some "#111827") = None <-> key = "transparent".
Proof.
  unfold chart_bg_table. cbn [dict_get].
  repeat match goal with
         | |- context [String.eqb ?a key] => destruct (String.eqb_spec a key)
         end; split; intros H; subst; try discriminate; try reflexivity;
    congruence.
Qed.

Lemma or_default_transparent (choice : option string) :
  PyStr.lower (or_default choice) = "transparent"
  <-> exists c, choice = Some c /\ PyStr.lower c = "transparent".
Proof.
  unfold or_default. destruct choice as [[|a c]|]; cbn [PyStr.truthy].
  - split; [discriminate | intros (c & [= <-] & H); discriminate].
  - split; [eauto | now intros (c' & [= <-] & H)].
  - split; [discriminate | intros (c & H & _); discriminate].
Qed.

Lemma figure_unset_iff (img chart : option string) :
  figure_bg (resolve_style img chart) = None
  <-> exists c, img = Some c /\ PyStr.lower c = "transparent".
Proof.
  cbn [resolve_style figure_bg]. unfold map_image_bg. cbn zeta.
  rewrite image_lookup_none. apply or_default_transparent.
Qed.

Lemma panel_unset_iff (img chart : option string) :
  panel_bg (resolve_style img chart) = None
  <-> chart = None \/ exists c, chart = Some c /\ PyStr.lower c = "transparent".
Proof.
  cbn [resolve_style panel_bg]. destruct chart as [c|].
  - unfold map_chart_bg. cbn zeta.
    rewrite chart_lookup_none, or_default_transparent.
    split; [now right | intros [H|H]; [discriminate | exact H]].
  - split; [now left | reflexivity].
Qed.

End UnsetFacts.

(** X4.  The figure colour is unset exactly for the choices that read
    [transparent] in lower case; the panel colour is unset exactly for an
    absent choice and for those same choices. *)
Theorem unset_colours (img chart : option string) :
  (figure_bg (resolve_style img chart) = None
   <-> exists c, img = Some c /\ PyStr.lower c = "transparent")
  /\ (panel_bg (resolve_style img chart) = None
      <-> chart = None \/ exists c, chart = Some c /\ PyStr.lower c = "transparent").
Proof. split; [apply figure_unset_iff | apply panel_unset_iff]. Qed.

(** X5.  A panel choice that reads [transparent] gives the same save sequence as
    no panel choice at all: no panel colour is injected. *)
Theorem transparent_panel_as_absent (img : option string) (c : string) :
  PyStr.lower c = "transparent" ->
  save_repl img (Some c) = save_repl img None.
Proof.
  intros H. unfold save_repl.
  assert (Hp : panel_bg (resolve_style img (Some c)) = None)
    by (apply panel_unset_iff; right; eauto).
  assert (Hf : figure_bg (resolve_style img (Some c))
               = figure_bg (resolve_style img None)) by reflexivity.
  rewrite Hp, Hf. reflexivity.
Qed.

Lemma transparent_panel_as_absent_witness :
  save_repl (Some "white") (Some "Transparent") = save_repl (Some "white") None.
Proof. exact (transparent_panel_as_absent (Some "white") "Transparent" eq_refl). Defined.

(** X6.  Unless the figure choice is [transparent] written with a capital
    somewhere, the save sequence is the same for the choices as sent and for
    their lower-case forms. *)
Theorem save_sequence_ignores_case (img chart : option string) :
  (forall c, img = Some c -> PyStr.lower c = "transparent" -> c = "transparent") ->
  save_repl (option_map PyStr.lower img) (option_map PyStr.lower chart)
  = save_repl img chart.
Proof.
  intros H. unfold save_repl. rewrite resolve_style_lower.
  replace (is_transparent_choice (option_map PyStr.lower img))
    with (is_transparent_choice img); [reflexivity|].
  destruct img as [c|]; [|reflexivity]. cbn [option_map is_transparent_choice].
  destruct (String.eqb_spec c "transparent") as [->|Hc]; [reflexivity|].
  destruct (String.eqb_spec (PyStr.lower c) "transparent") as [E|_]; [|reflexivity].
  elim Hc. now apply H.
Qed.

Lemma save_sequence_ignores_case_witness :
  save_repl (Some "blue") (Some "teal") = save_repl (Some "BLUE") (Some "Teal").
Proof.
  apply (save_sequence_ignores_case (Some "BLUE") (Some "Teal")).
  intros c [= <-]. discriminate.
Defined.

(** ** The message of a failed renderer *)

Section MessageFacts.

Lemma filter_relevant_first (pre post : list string) (line : string) :
  Forall (fun l => PyStr.contains "error" (PyStr.lower l) = false) pre ->
  PyStr.contains "error" (PyStr.lower line) = true ->
  exists others, List.filter relevant (pre ++ line :: post)%list = line :: others.
Proof.
  intros Hpre Hline. rewrite List.filter_app, (filter_relevant_none _ Hpre).
  cbn [app List.filter]. rewrite relevant_keyword_only, Hline. eauto.
Qed.

Lemma length_cap_error (clean_error : string) :
  String.length (cap_error clean_error) <= 303.
Proof.
  unfold cap_error.
  destruct (Nat.ltb_spec 300 (String.length clean_error)); [|lia].
  rewrite length_append, length_take. cbn [String.length]. lia.
Qed.

End MessageFacts.

(** X7.  The message is the first line of the stripped stream that holds [error]
    in any case of the letters, stripped of the white space around it. *)
Theorem first_keyword_line_selected
    (stderr : string) (pre post : list string) (line : string) :
  PyStr.split "010" (PyStr.strip stderr) = (pre ++ line :: post)%list ->
  Forall (fun l => PyStr.contains "error" (PyStr.lower l) = false) pre ->
  PyStr.contains "error" (PyStr.lower line) = true ->
  select_error stderr = PyStr.strip line.
Proof.
  intros Hsplit Hpre Hline. unfold select_error.
  destruct (PyStr.strip stderr) as [|c s] eqn:E.
  - destruct pre as [|p [|q pre]]; cbn in Hsplit; try discriminate.
    injection Hsplit as <- _. discriminate.
  - cbn [PyStr.truthy]. rewrite Hsplit.
    destruct (filter_relevant_first pre post line Hpre Hline) as (others & ->).
    reflexivity.
Qed.

Lemma first_keyword_line_selected_witness :
  select_error ("Loading required package: grid" ++ LF
                ++ "  Fatal ERROR: cannot open file  " ++ LF ++ "Execution halted")
  = "Fatal ERROR: cannot open file".
Proof.
  refine (first_keyword_line_selected
            ("Loading required package: grid" ++ LF
             ++ "  Fatal ERROR: cannot open file  " ++ LF ++ "Execution halted")
            ["Loading required package: grid"] ["Execution halted"]
            "  Fatal ERROR: cannot open file  " eq_refl _ eq_refl).
  apply List.Forall_cons; [reflexivity | apply List.Forall_nil].
Defined.

(** X9.  Whatever the renderer writes to its diagnostic stream, the message of
    the raised error is at most 516 characters long, and that length is
    reached. *)
Theorem error_message_bounded :
  (forall (stderr : string) (exists_file : bool),
     String.length (r_error_msg stderr exists_file) <= 516)
  /\ String.length
       (r_error_msg
          ("Error: there is no package called ggplot2 "
           ++ string_of_list_ascii (List.repeat "!"%char 300)) false)
     = 516.
Proof.
  split; [|vm_compute; reflexivity]. intros stderr exists_file.
  unfold r_error_msg, add_guidance, add_note.
  pose proof (length_cap_error (select_error stderr)) as Hcap.
  set (e := cap_error (select_error stderr)) in *.
  rewrite length_append.
  change (String.length "R execution error: ") with 19.
  destruct exists_file; destruct (_ && _);
    rewrite ?length_append;
    change (String.length no_image_note) with 28;
    change (String.length ggplot2_guidance) with 166; lia.
Qed.

(** X10.  A diagnostic stream that is empty or holds white space only gives the
    fixed message, with the note when the output file is missing. *)
Theorem blank_stream_message (stderr : string) (exists_file : bool) :
  PyStr.strip stderr = "" ->
  r_error_msg stderr exists_file
  = "R execution error: R script execution failed"
    ++ (if exists_file then "" else no_image_note).
Proof.
  intros H. unfold r_error_msg, select_error. rewrite H. cbn [PyStr.truthy List.filter].
  destruct exists_file; reflexivity.
Qed.

Lemma blank_stream_message_witness :
  r_error_msg ("  " ++ LF ++ " ") false
  = "R execution error: R script execution failed (no output image generated)".
Proof. exact (blank_stream_message ("  " ++ LF ++ " ") false eq_refl). Defined.

(** C3's second part, on a stream without the keyword. *)
Lemma select_error_fallback_witness :
  select_error (LF ++ "  Warning message: z " ++ LF ++ "Execution halted")
  = PyStr.take 200 "Warning message: z"
  /\ String.length
       (select_error (LF ++ "  Warning message: z " ++ LF ++ "Execution halted"))
     <= 200.
Proof.
  refine (select_error_fallback
            (LF ++ "  Warning message: z " ++ LF ++ "Execution halted") _ _).
  - discriminate.
  - repeat (apply List.Forall_cons; [reflexivity|]). apply List.Forall_nil.
Defined.

(** ** What the adapters return, and when *)

(** X11.  The external path returns an image only when the renderer ran to its
    end with exit code zero and left the output file, whose content the
    image is: never after a timeout, a failure to start, or for an absent
    source. *)
Theorem image_only_from_completed_run {order : Csv.HashOrder}
    (module_dir temp_dir : string)
    (subprocess_run :
       list (string * string) -> run_call -> proc_outcome * option (list Byte.byte))
    (code : option string) (csv_data : option (list Csv.row))
    (img chart : option string) (grid : option bool) (image : list Byte.byte) :
  execute_r_code module_dir temp_dir subprocess_run code csv_data img chart grid
  = inr image ->
  exists src files stdout stderr,
    code = Some src
    /\ r_files temp_dir src csv_data = inr files
    /\ subprocess_run files (r_run_call module_dir temp_dir csv_data img chart grid)
       = (Completed 0 stdout stderr, Some image).
Proof.
  unfold execute_r_code. intros H.
  destruct code as [src|]; [|discriminate].
  destruct (r_files temp_dir src csv_data) as [e|files] eqn:Ef; [discriminate|].
  destruct (subprocess_run files _) as [[rc out err|msg|msg] file] eqn:Er;
    try discriminate.
  apply r_finish_success in H as [-> ->]. eauto 8.
Qed.

Lemma image_only_from_completed_run_witness :
  let order := Csv.insertion_order in
  exists src files stdout stderr,
    Some "plot(1)" = Some src
    /\ r_files "/tmp/t0" src None = inr files
    /\ (fun _ _ => (Completed 0 "" "", Some [Byte.x89]))
         files (r_run_call "/app" "/tmp/t0" None None None None)
       = (Completed 0 stdout stderr, Some [Byte.x89]).
Proof.
  intros order.
  exact (image_only_from_completed_run "/app" "/tmp/t0"
           (fun _ _ => (Completed 0 "" "", Some [Byte.x89]))
           (Some "plot(1)") None None None None [Byte.x89] eq_refl).
Defined.

(** X12.  When the rows cannot be written as CSV, both adapters raise that error
    and nothing is executed: the outcome is the same whatever the embedded
    interpreter or the renderer would do. *)
Theorem csv_error_before_execution {order : Csv.HashOrder}
    (exec : string -> gmap string pyobj -> exec_outcome)
    (text_figure_chunks : string -> list Byte.byte)
    (module_dir temp_dir : string)
    (subprocess_run :
       list (string * string) -> run_call -> proc_outcome * option (list Byte.byte))
    (code : option string) (src : string) (rows : list Csv.row)
    (img chart : option string) (grid : option bool) (e : exn) :
  csv_text rows = inl e ->
  execute_python_code exec text_figure_chunks code (Some rows) img chart
  = inl (Exception e)
  /\ execute_r_code module_dir temp_dir subprocess_run (Some src) (Some rows)
       img chart grid = inl e.
Proof.
  intros H. destruct rows as [|first rest]; [discriminate|].
  unfold execute_python_code, rewritten_program, inject_csv, execute_r_code, r_files.
  now rewrite H.
Qed.

Lemma csv_error_before_execution_witness :
  let order := Csv.insertion_order in
  let written :=
    {| sink_closed := false; sink_value := [Byte.x00]; sink_pos := 1;
       sink_views := 0 |} in
  execute_python_code (fun _ _ => ExecEnds written) (fun _ => [])
    (Some "plt.show()") (Some [ [("a", Some "1")]; [("b", Some "2")] ]) None None
  = inl (Exception (ValueError ["b"]))
  /\ execute_r_code "/app" "/tmp/t0" (fun _ _ => (Completed 0 "" "", Some []))
       (Some "plot(1)") (Some [ [("a", Some "1")]; [("b", Some "2")] ])
       None None None
     = inl (ValueError ["b"]).
Proof.
  intros order written.
  exact (csv_error_before_execution (fun _ _ => ExecEnds written) (fun _ => [])
           "/app" "/tmp/t0" (fun _ _ => (Completed 0 "" "", Some []))
           (Some "plt.show()") "plot(1)" [ [("a", Some "1")]; [("b", Some "2")] ]
           None None None (ValueError ["b"]) eq_refl).
Defined.

(** ** Rows and their keys *)

Section KeyFacts.

Context {order : Csv.HashOrder}.

Lemma dict_to_list_ok_iff (fieldnames : list string) (r : Csv.row) :
  (exists cells, Csv.dict_to_list fieldnames r = inr cells)
  <-> forall k, In k (Csv.keys r) -> In k fieldnames.
Proof.
  split.
  - intros (cells & H) k Hk. unfold Csv.dict_to_list in H.
    destruct (Csv.set_difference (Csv.keys r) fieldnames) as [|w ws] eqn:Es;
      [|discriminate].
    destruct (Csv.mem k fieldnames) eqn:Em; [now apply mem_In|].
    assert (Hin : In k (Csv.set_difference (Csv.keys r) fieldnames)).
    { apply set_difference_In. split; [exact Hk|].
      intros Hf. apply mem_In in Hf. congruence. }
    rewrite Es in Hin. destruct Hin.
  - intros H. rewrite dict_to_list_uniform by exact H. eauto.
Qed.

Lemma dict_writerows_ok_iff (fieldnames : list string) (rows : list Csv.row) :
  (exists body, Csv.dict_writerows fieldnames rows = inr body)
  <-> Forall (fun r => forall k, In k (Csv.keys r) -> In k fieldnames) rows.
Proof.
  induction rows as [|r rows IH].
  - split; [constructor | intros _; now exists ""].
  - cbn [Csv.dict_writerows]. unfold Csv.dict_writerow. split.
    + intros (body & H).
      destruct (Csv.dict_to_list fieldnames r) as [w|cells] eqn:Ed; [discriminate|].
      destruct (Csv.dict_writerows fieldnames rows) as [w|rest] eqn:Er; [discriminate|].
      constructor; [apply dict_to_list_ok_iff; eauto | apply IH; eauto].
    + intros H. apply List.Forall_cons_iff in H as [Hr Hrows].
      rewrite dict_to_list_uniform by exact Hr.
      apply IH in Hrows as (rest & ->). eauto.
Qed.

Lemma dict_writerows_wrong (fieldnames : list string) (rows : list Csv.row)
    (wrong : list string) :
  Csv.dict_writerows fieldnames rows = inl wrong ->
  wrong <> []
  /\ exists r, In r rows
       /\ forall k, In k wrong <-> In k (Csv.keys r) /\ ~ In k fieldnames.
Proof.
  induction rows as [|r rows IH]; [discriminate|].
  cbn [Csv.dict_writerows]. unfold Csv.dict_writerow, Csv.dict_to_list.
  destruct (Csv.set_difference (Csv.keys r) fieldnames) as [|w ws] eqn:Es.
  - destruct (Csv.dict_writerows fieldnames rows) as [w|rest]; [|discriminate].
    intros [= <-]. destruct (IH eq_refl) as (Hne & r' & Hin & Hk).
    split; [exact Hne|]. exists r'. split; [now right | exact Hk].
  - intros [= <-]. split; [discriminate|]. exists r. split; [now left|].
    intros k. rewrite <- Es. apply set_difference_In.
Qed.

End KeyFacts.

(** X13.  The rows have a CSV text exactly when no row has a key that the first
    row lacks; a row may lack keys of the first row.  Otherwise the error is
    a [ValueError] that lists the keys of one row that the first row lacks. *)
Theorem csv_text_keys {order : Csv.HashOrder} (first : Csv.row) (rest : list Csv.row) :
  ((exists text, csv_text (first :: rest) = inr text)
   <-> Forall (fun r => forall k, In k (Csv.keys r) -> In k (Csv.keys first)) rest)
  /\ (forall e, csv_text (first :: rest) = inl e ->
      exists r wrong,
        e = ValueError wrong /\ wrong <> [] /\ In r rest
        /\ forall k, In k wrong <-> In k (Csv.keys r) /\ ~ In k (Csv.keys first)).
Proof.
  assert (Hfirst : forall k, In k (Csv.keys first) -> In k (Csv.keys first)) by auto.
  split.
  - unfold csv_text. split.
    + intros (text & H).
      destruct (Csv.dict_writerows (Csv.keys first) (first :: rest)) as [w|body] eqn:E;
        [discriminate|].
      assert (Hall : Forall (fun r => forall k, In k (Csv.keys r) -> In k (Csv.keys first))
                       (first :: rest)) by (apply dict_writerows_ok_iff; eauto).
      now apply List.Forall_cons_iff in Hall as [_ Hall].
    + intros H.
      destruct (proj2 (dict_writerows_ok_iff (Csv.keys first) (first :: rest)))
        as (body & ->); [now constructor | eauto].
  - intros e He. unfold csv_text in He.
    destruct (Csv.dict_writerows (Csv.keys first) (first :: rest)) as [w|body] eqn:E;
      [|discriminate].
    injection He as <-.
    destruct (dict_writerows_wrong _ _ _ E) as (Hne & r & [<-|Hin] & Hk).
    + exfalso. destruct w as [|k w]; [now elim Hne|].
      destruct (proj1 (Hk k) (or_introl eq_refl)) as [H1 H2]. now elim H2.
    + exists r, w. auto.
Qed.

(** ** The answers of the chart handler *)

(** X14.  Whatever the adapters do, the handler calls at most one of them; an
    image is answered only when the one adapter called returned it, with the
    PNG media type; an error answer has status 400 or 500, and with status
    500 it carries the text of the exception the adapter raised, an instance
    of [Exception].  The handler leaves a request unanswered only when the
    adapter called raised an exception outside [Exception]. *)
Theorem chart_answers
    (adapters : adapter_call -> outcome (list Byte.byte)) (req : ChartRequest) :
  length (snd (run_handler adapters (generate_chart req))) <= 1
  /\ (forall image mimetype,
        fst (run_handler adapters (generate_chart req)) = SendFile image mimetype ->
        mimetype = "image/png"
        /\ exists c, snd (run_handler adapters (generate_chart req)) = [c]
                     /\ adapters c = inr image)
  /\ (forall error status,
        fst (run_handler adapters (generate_chart req)) = JsonError error status ->
        (status = 400%Z
         /\ error = "Invalid language specified"
         /\ snd (run_handler adapters (generate_chart req)) = [])
        \/ (status = 500%Z
            /\ exists c e, snd (run_handler adapters (generate_chart req)) = [c]
                           /\ adapters c = inl (Exception e)
                           /\ error = str_exn e))
  /\ (forall cls text,
        fst (run_handler adapters (generate_chart req)) = Unhandled cls text ->
        exists c, snd (run_handler adapters (generate_chart req)) = [c]
                  /\ adapters c = inl (BaseException cls text)).
Proof.
  unfold generate_chart.
  destruct (language req) as [lang|].
  - destruct (String.eqb lang "python"); [|destruct (String.eqb lang "r")];
      cbn [run_handler];
      try match goal with
          | |- context [respond (adapters ?c)] =>
              destruct (adapters c) as [[e|cls text]|image] eqn:Ea
          end;
      cbn [respond run_handler fst snd length]; (split; [lia|]);
      (split; [|split]);
      intros x y [= <- <-] || (intros x y H; try discriminate H); eauto 10.
  - cbn [run_handler fst snd length]. split; [lia|]. split; [|split].
    + intros x y H. discriminate H.
    + intros x y [= <- <-]. eauto.
    + intros x y H. discriminate H.
Qed.



(** ** The import of [io] *)

Section ImportFacts.

Lemma filter_filter_negb {A : Type} (p : A -> bool) (l : list A) :
  List.filter p (List.filter (fun x => negb (p x)) l) = [].
Proof.
  induction l as [|x l IH]; [reflexivity|].
  cbn [List.filter]. destruct (p x) eqn:E; cbn [negb List.filter];
    [exact IH | now rewrite E].
Qed.

Lemma rstrip_head (c : ascii) (s : string) :
  PyStr.is_space c = false -> exists r, PyStr.rstrip (String c s) = String c r.
Proof.
  intros H. cbn [PyStr.rstrip]. destruct (PyStr.rstrip s); rewrite ?H; eauto.
Qed.

Lemma csv_literal_not_import (text : string) :
  String.eqb (PyStr.strip (csv_literal text)) "import io" = false.
Proof.
  unfold PyStr.strip, csv_literal.
  change ("csv_data_string = " ++ DQ ++ DQ ++ DQ ++ text ++ DQ ++ DQ ++ DQ)
    with (String "c" ("sv_data_string = " ++ DQ ++ DQ ++ DQ ++ text ++ DQ ++ DQ ++ DQ)).
  cbn [PyStr.lstrip]. change (PyStr.is_space "c") with false. cbn iota.
  destruct (rstrip_head "c" ("sv_data_string = " ++ DQ ++ DQ ++ DQ ++ text
                             ++ DQ ++ DQ ++ DQ) eq_refl) as (r & ->).
  reflexivity.
Qed.

End ImportFacts.

(** X16.  After the data injection exactly one line of the program is
    [import io], and it is the first line. *)
Theorem import_io_once (text modified_code : string) :
  hd "" (inject_lines text modified_code) = "import io"
  /\ List.filter (fun line => String.eqb (PyStr.strip line) "import io")
       (inject_lines text modified_code)
     = ["import io"].
Proof.
  unfold inject_lines. cbn zeta.
  set (body := List.filter _ (PyStr.split _ _)).
  assert (Hbody : List.filter
                    (fun line => String.eqb (PyStr.strip line) "import io") body
                  = []) by apply filter_filter_negb.
  rewrite list_insert_at_split.
  rewrite scan_imports_import by reflexivity.
  cbn [List.firstn List.skipn app hd]. split; [reflexivity|].
  cbn [List.filter]. change (PyStr.strip "import io" =? "import io") with true.
  cbn iota. f_equal.
  rewrite List.filter_app. cbn [List.filter].
  rewrite csv_literal_not_import.
  rewrite <- List.filter_app, List.firstn_skipn. exact Hbody.
Qed.

(** ** The database endpoints *)

Section DatabaseFacts.

Variable postgreSQL_pool : option pool.
Variable getconn_env : list event -> result conn.
Variable op_env : list event -> db_op -> option exn.

Lemma get_db_cached (w : world) (v : dbval) :
  g w !! "db" = Some v ->
  get_db postgreSQL_pool getconn_env w = (inr v, w).
Proof. intros H. unfold get_db, bind, ret. now rewrite !H. Qed.

Lemma get_db_unconfigured (w : world) :
  postgreSQL_pool = None -> g w !! "db" = None ->
  get_db postgreSQL_pool getconn_env w
  = (inr NoConn, {| g := <["db" := NoConn]> (g w); trace := trace w |}).
Proof.
  intros Hp H. unfold get_db, bind, set_db. rewrite H, Hp. cbn [g trace].
  now rewrite lookup_insert_eq.
Qed.

Lemma get_db_fresh (w : world) (p : pool) :
  postgreSQL_pool = Some p -> g w !! "db" = None ->
  get_db postgreSQL_pool getconn_env w
  = match getconn_env (trace w) with
    | inr c =>
        (inr (Conn c),
         {| g := <["db" := Conn c]> (g w);
            trace := (trace w ++ [EvGetConn (inr c)])%list |})
    | inl e =>
        (inl e, {| g := g w; trace := (trace w ++ [EvGetConn (inl e)])%list |})
    end.
Proof.
  intros Hp H. unfold get_db, bind, set_db, getconn. rewrite H, Hp.
  destruct (getconn_env (trace w)) as [e|c]; cbn [g trace]; [reflexivity|].
  now rewrite lookup_insert_eq.
Qed.

Lemma close_db_connection (w : world) (p : pool) (c : conn) :
  postgreSQL_pool = Some p -> g w !! "db" = Some (Conn c) ->
  close_db postgreSQL_pool op_env w
  = perform op_env (PutConn c) {| g := delete "db" (g w); trace := trace w |}.
Proof. intros Hp H. unfold close_db. now rewrite H, Hp. Qed.

Lemma close_db_nothing (w : world) :
  postgreSQL_pool = None \/ g w !! "db" = None \/ g w !! "db" = Some NoConn ->
  close_db postgreSQL_pool op_env w
  = (inr tt, {| g := delete "db" (g w); trace := trace w |}).
Proof.
  intros H. unfold close_db.
  destruct H as [H|[H|H]]; rewrite H; cbn; [|reflexivity..].
  now destruct (default NoConn (g w !! "db")).
Qed.

End DatabaseFacts.

(** Running an endpoint that found a connection: the steps of both
    endpoints, one case for each operation that can fail. *)
Ltac run_endpoint p Hp Hc :=
  unfold app_context, submit_feedback, track_event, bind;
  rewrite (get_db_fresh _ _ _ p Hp (lookup_empty _));
  cbn [trace g app]; rewrite Hc;
  unfold catch, bind, perform, ret; cbn [trace g app].

Ltac close_context p Hp :=
  erewrite (close_db_connection _ _ _ p) by
    (first [exact Hp | cbn [g]; apply lookup_insert_eq]);
  unfold perform; cbn [trace g app].

(** X17.  When the database URL is unset or empty, or making the pool raised, both
    endpoints answer status 500 with the text [Database is not configured],
    and no operation is made on a pool or a database. *)
Theorem database_not_configured
    (db_url : option string) (connect : string -> option exn)
    (getconn_env : list event -> result conn)
    (op_env : list event -> db_op -> option exn)
    (data : list (string * json)) :
  db_url = None \/ db_url = Some ""
  \/ (exists url e, db_url = Some url /\ connect url = Some e) ->
  let postgreSQL_pool := init_pool db_url connect in
  let answer := (inr (ApiError "Database is not configured" 500), inr tt, []) in
  app_context postgreSQL_pool op_env
    (submit_feedback postgreSQL_pool getconn_env op_env data) = answer
  /\ app_context postgreSQL_pool op_env
       (track_event postgreSQL_pool getconn_env op_env data) = answer.
Proof.
  intros H.
  assert (Hp : init_pool db_url connect = None).
  { destruct H as [->|[->|(url & e & -> & He)]]; [reflexivity..|].
    unfold init_pool. rewrite He. now destruct (PyStr.truthy url). }
  cbn zeta. rewrite Hp.
  unfold app_context, submit_feedback, track_event, bind.
  rewrite (get_db_unconfigured None getconn_env _ eq_refl (lookup_empty _)).
  unfold ret. rewrite close_db_nothing by now left.
  split; reflexivity.
Qed.

Lemma database_not_configured_witness :
  let postgreSQL_pool := init_pool (Some "") (fun _ => None) in
  let answer := (inr (ApiError "Database is not configured" 500), inr tt, []) in
  app_context postgreSQL_pool (fun _ _ => None)
    (submit_feedback postgreSQL_pool (fun _ => inr 0) (fun _ _ => None)
       [("email", JStr "a@b.c")]) = answer
  /\ app_context postgreSQL_pool (fun _ _ => None)
       (track_event postgreSQL_pool (fun _ => inr 0) (fun _ _ => None)
          [("email", JStr "a@b.c")]) = answer.
Proof.
  apply (database_not_configured (Some "") (fun _ => None) (fun _ => inr 0)
           (fun _ _ => None) [("email", JStr "a@b.c")]).
  right. left. reflexivity.
Defined.

(** X18.  An event whose name is missing or falsy is refused with status 400: the
    connection was taken and goes back to the pool, and no database operation
    is made in between. *)
Theorem event_name_required
    (p : pool) (getconn_env : list event -> result conn)
    (op_env : list event -> db_op -> option exn)
    (data : list (string * json)) (c : conn) :
  getconn_env [] = inr c ->
  json_truthy (json_get data "event") = false ->
  let put := op_env [EvGetConn (inr c)] (PutConn c) in
  app_context (Some p) op_env (track_event (Some p) getconn_env op_env data)
  = (inr (ApiError "Event name is required" 400),
     match put with Some e => inl e | None => inr tt end,
     [EvGetConn (inr c); EvOp (PutConn c) put]).
Proof.
  intros Hc Hn. cbn zeta.
  run_endpoint p (@eq_refl _ (Some p)) Hc. rewrite Hn. cbn [negb].
  close_context p (@eq_refl _ (Some p)). reflexivity.
Qed.

Lemma event_name_required_witness :
  app_context (Some (SimpleConnectionPool 1 20 "postgres://db"))
    (fun _ _ => None)
    (track_event (Some (SimpleConnectionPool 1 20 "postgres://db"))
       (fun _ => inr 7) (fun _ _ => None) [("event", JStr "")])
  = (inr (ApiError "Event name is required" 400), inr tt,
     [EvGetConn (inr 7); EvOp (PutConn 7) None]).
Proof.
  apply (event_name_required (SimpleConnectionPool 1 20 "postgres://db")
           (fun _ => inr 7) (fun _ _ => None) [("event", JStr "")] 7);
    reflexivity.
Defined.

(** X19.  With a pool, an endpoint asks it for one connection, first of all.
    When the pool raises, the endpoint raises the same and nothing else is
    done; otherwise that connection goes back to the pool as the last
    operation of the context, whatever the database operations in between
    came to, and the pool is not touched in between. *)
Theorem connection_returned
    (p : pool) (getconn_env : list event -> result conn)
    (op_env : list event -> db_op -> option exn)
    (data : list (string * json)) (feedback : bool) :
  let endpoint :=
    if feedback then submit_feedback (Some p) getconn_env op_env data
    else track_event (Some p) getconn_env op_env data in
  let '(r, _, operations) := app_context (Some p) op_env endpoint in
  match getconn_env [] with
  | inr c =>
      exists middle put,
        operations
        = (EvGetConn (inr c) :: middle ++ [EvOp (PutConn c) put])%list
        /\ Forall (fun ev => is_pool_event ev = false) middle
  | inl e => r = inl e /\ operations = [EvGetConn (inl e)]
  end.
Proof.
  cbn zeta.
  destruct (getconn_env []) as [e|c] eqn:Hc.
  - destruct feedback;
      unfold app_context, submit_feedback, track_event, bind;
      rewrite (get_db_fresh _ _ _ p eq_refl (lookup_empty _));
      cbn [trace g app]; rewrite Hc;
      (rewrite close_db_nothing by (right; left; apply lookup_empty));
      now split.
  - destruct feedback.
    + run_endpoint p (@eq_refl _ (Some p)) Hc.
      repeat match goal with
             | |- context [op_env ?h ?o] =>
                 lazymatch o with
                 | PutConn _ => fail
                 | _ => destruct (op_env h o); cbn [trace g app]
                 end
             end;
        close_context p (@eq_refl _ (Some p));
        lazymatch goal with
        | |- exists middle put, (_ :: ?l) = _ /\ _ =>
            exists (List.removelast l); eexists;
            split; [cbn; reflexivity | cbn; repeat constructor]
        end.
    + run_endpoint p (@eq_refl _ (Some p)) Hc.
      destruct (negb (json_truthy (json_get data "event")));
      repeat match goal with
             | |- context [op_env ?h ?o] =>
                 lazymatch o with
                 | PutConn _ => fail
                 | _ => destruct (op_env h o); cbn [trace g app]
                 end
             end;
        close_context p (@eq_refl _ (Some p));
        lazymatch goal with
        | |- exists middle put, (_ :: ?l) = _ /\ _ =>
            exists (List.removelast l); eexists;
            split; [cbn; reflexivity | cbn; repeat constructor]
        end.
Qed.

(** One case of a transaction that stopped: the first [n] operations went
    through and operation [o] raised [e]. *)
Ltac stopped_at p n o e :=
  close_context p (@eq_refl _ (Some p));
  exists n, [EvOp o (Some e)]; eexists;
  split; [reflexivity | right; exists o, e; repeat split].

Ltac transaction p c op_env :=
  let e := fresh "e" in
  destruct (op_env _ (Cursor c)) as [e|]; cbn [trace g app];
    [stopped_at p 0 (Cursor c) e|];
  lazymatch goal with
  | |- context [op_env _ (Execute c ?q ?ps)] =>
      destruct (op_env _ (Execute c q ps)) as [e|]; cbn [trace g app];
        [stopped_at p 1 (Execute c q ps) e|]
  end;
  destruct (op_env _ (Commit c)) as [e|]; cbn [trace g app];
    [stopped_at p 2 (Commit c) e|];
  destruct (op_env _ (CloseCursor c)) as [e|]; cbn [trace g app];
    [stopped_at p 3 (CloseCursor c) e|];
  close_context p (@eq_refl _ (Some p));
  exists 4, []; eexists; split; [reflexivity | left; repeat split].

(** X20.  The feedback endpoint opens a cursor, executes the insert with the ten
    fields of the body in the order of the columns (a missing field is null),
    commits and closes the cursor, stopping at the first operation that
    raises.  It answers 201 when all four went through, and otherwise 500
    with a fixed text; the connection goes back to the pool in both cases. *)
Theorem feedback_transaction
    (p : pool) (getconn_env : list event -> result conn)
    (op_env : list event -> db_op -> option exn)
    (data : list (string * json)) (c : conn) :
  getconn_env [] = inr c ->
  let script :=
    [ Cursor c;
      Execute c feedback_query (map (json_get data) feedback_keys);
      Commit c; CloseCursor c ] in
  let '(r, _, operations) :=
    app_context (Some p) op_env
      (submit_feedback (Some p) getconn_env op_env data) in
  exists n tail put,
    operations
    = (EvGetConn (inr c)
       :: map (fun o => EvOp o None) (List.firstn n script)
       ++ tail ++ [EvOp (PutConn c) put])%list
    /\ ((n = 4 /\ tail = []
         /\ r = inr (ApiMessage "Feedback submitted successfully!" 201))
        \/ (exists o e,
              List.nth_error script n = Some o
              /\ tail = [EvOp o (Some e)]
              /\ r = inr (ApiError "Could not save feedback." 500))).
Proof.
  intros Hc. cbn zeta.
  run_endpoint p (@eq_refl _ (Some p)) Hc.
  transaction p c op_env.
Qed.

Lemma feedback_transaction_witness :
  let p := SimpleConnectionPool 1 20 "postgres://db" in
  let c := 3 in
  let data := [("email", JStr "a@b.c"); ("bugs", JNull)] in
  let script :=
    [ Cursor c;
      Execute c feedback_query (map (json_get data) feedback_keys);
      Commit c; CloseCursor c ] in
  let '(r, _, operations) :=
    app_context (Some p) (fun _ _ => None)
      (submit_feedback (Some p) (fun _ => inr c) (fun _ _ => None) data) in
  exists n tail put,
    operations
    = (EvGetConn (inr c)
       :: map (fun o => EvOp o None) (List.firstn n script)
       ++ tail ++ [EvOp (PutConn c) put])%list
    /\ ((n = 4 /\ tail = []
         /\ r = inr (ApiMessage "Feedback submitted successfully!" 201))
        \/ (exists o e,
              List.nth_error script n = Some o
              /\ tail = [EvOp o (Some e)]
              /\ r = inr (ApiError "Could not save feedback." 500))).
Proof.
  exact (feedback_transaction (SimpleConnectionPool 1 20 "postgres://db")
           (fun _ => inr 3) (fun _ _ => None)
           [("email", JStr "a@b.c"); ("bugs", JNull)] 3 eq_refl).
Defined.

(** X21.  For an event with a name, the event endpoint opens a cursor, executes
    the insert with the name and the whole body, commits and closes the
    cursor, stopping at the first operation that raises.  It answers 200
    when all four went through, and otherwise 500 with a fixed text. *)
Theorem event_transaction
    (p : pool) (getconn_env : list event -> result conn)
    (op_env : list event -> db_op -> option exn)
    (data : list (string * json)) (c : conn) :
  getconn_env [] = inr c ->
  json_truthy (json_get data "event") = true ->
  let script :=
    [ Cursor c;
      Execute c event_query [json_get data "event"; JObj data];
      Commit c; CloseCursor c ] in
  let '(r, _, operations) :=
    app_context (Some p) op_env
      (track_event (Some p) getconn_env op_env data) in
  exists n tail put,
    operations
    = (EvGetConn (inr c)
       :: map (fun o => EvOp o None) (List.firstn n script)
       ++ tail ++ [EvOp (PutConn c) put])%list
    /\ ((n = 4 /\ tail = [] /\ r = inr (ApiMessage "Event tracked" 200))
        \/ (exists o e,
              List.nth_error script n = Some o
              /\ tail = [EvOp o (Some e)]
              /\ r = inr (ApiError "Could not track event." 500))).
Proof.
  intros Hc Hn. cbn zeta.
  run_endpoint p (@eq_refl _ (Some p)) Hc. rewrite Hn. cbn [negb].
  transaction p c op_env.
Qed.

Lemma event_transaction_witness :
  let p := SimpleConnectionPool 1 20 "postgres://db" in
  let c := 3 in
  let data := [("event", JStr "chart_generated")] in
  let op_env := fun (_ : list event) (o : db_op) =>
    match o with Commit _ => Some (Raised "connection lost") | _ => None end in
  let script :=
    [ Cursor c;
      Execute c event_query [json_get data "event"; JObj data];
      Commit c; CloseCursor c ] in
  let '(r, _, operations) :=
    app_context (Some p) op_env
      (track_event (Some p) (fun _ => inr c) op_env data) in
  exists n tail put,
    operations
    = (EvGetConn (inr c)
       :: map (fun o => EvOp o None) (List.firstn n script)
       ++ tail ++ [EvOp (PutConn c) put])%list
    /\ ((n = 4 /\ tail = [] /\ r = inr (ApiMessage "Event tracked" 200))
        \/ (exists o e,
              List.nth_error script n = Some o
              /\ tail = [EvOp o (Some e)]
              /\ r = inr (ApiError "Could not track event." 500))).
Proof.
  exact (event_transaction (SimpleConnectionPool 1 20 "postgres://db")
           (fun _ => inr 3)
           (fun _ o => match o with
                       | Commit _ => Some (Raised "connection lost")
                       | _ => None
                       end)
           [("event", JStr "chart_generated")] 3 eq_refl eq_refl).
Defined.

(** X22.  Once [get_db] has returned in an application context, calling it again
    returns the same value and changes nothing: the pool is not asked for a
    second connection. *)
Theorem get_db_once
    (postgreSQL_pool : option pool) (getconn_env : list event -> result conn)
    (w w1 : world) (v : dbval) :
  get_db postgreSQL_pool getconn_env w = (inr v, w1) ->
  get_db postgreSQL_pool getconn_env w1 = (inr v, w1).
Proof.
  intros H. apply get_db_cached.
  destruct (g w !! "db") as [v0|] eqn:Hg.
  - rewrite (get_db_cached _ _ _ _ Hg) in H.
    apply pair_equal_spec in H as [Hv <-]. now injection Hv as <-.
  - destruct postgreSQL_pool as [p|] eqn:Hp.
    + rewrite (get_db_fresh _ _ _ p eq_refl Hg) in H.
      destruct (getconn_env (trace w)) as [e|c];
        [apply pair_equal_spec in H as [Hv _]; discriminate|].
      apply pair_equal_spec in H as [Hv <-]. injection Hv as <-.
      cbn [g]. apply lookup_insert_eq.
    + rewrite (get_db_unconfigured _ _ _ eq_refl Hg) in H.
      apply pair_equal_spec in H as [Hv <-]. injection Hv as <-.
      cbn [g]. apply lookup_insert_eq.
Qed.

Lemma get_db_once_witness :
  let postgreSQL_pool := Some (SimpleConnectionPool 1 20 "postgres://db") in
  let w1 := {| g := <["db" := Conn 5]> ∅; trace := [EvGetConn (inr 5)] |} in
  get_db postgreSQL_pool (fun _ => inr 5) w1 = (inr (Conn 5), w1).
Proof.
  exact (get_db_once (Some (SimpleConnectionPool 1 20 "postgres://db"))
           (fun _ => inr 5) {| g := ∅; trace := [] |}
           {| g := <["db" := Conn 5]> ∅; trace := [EvGetConn (inr 5)] |}
           (Conn 5) eq_refl).
Defined.
